(** * Wrap Up mail generator: template rendering, input validation and the
      settings store of [wumm/src.py], embedded and verified. *)

From Stdlib Require Import ZArith NArith List Bool Lia.
From Stdlib Require Import Strings.Ascii Strings.String.
Import ListNotations.

Open Scope Z_scope.

(** * Python text *)

(** A Python [str] is a sequence of Unicode code points. *)
Definition codepoint := N.
Definition str := list codepoint.

Module Text.

(** String literals of the source are written in this file as UTF-8 text
    and decoded to code points.  [go acc k s] reads the bytes of [s]
    with [k] continuation bytes still owed to the code point [acc]. *)
Fixpoint go (acc : N) (k : nat) (s : string) : str :=
  match s with
  | EmptyString => []
  | String a rest =>
      let b := N_of_ascii a in
      match k with
      | S k' =>
          let acc' := (acc * 64 + b mod 64)%N in
          match k' with
          | O => acc' :: go 0%N O rest
          | S _ => go acc' k' rest
          end
      | O =>
          if (b <? 128)%N then b :: go 0%N O rest
          else if (b <? 224)%N then go (b mod 32)%N 1%nat rest
          else if (b <? 240)%N then go (b mod 16)%N 2%nat rest
          else go (b mod 8)%N 3%nat rest
      end
  end.

Definition lit (s : string) : str := go 0%N O s.

(** The newline of the source's ["\n"] escapes. *)
Definition nl : str := [10%N].

(** [bool(s)] for a str: true unless empty. *)
Definition truthy (s : str) : bool :=
  match s with [] => false | _ :: _ => true end.

(** [a or b] on str values. *)
Definition or_else (a b : str) : str := if truthy a then a else b.

(** [str.isspace] for one code point (the table of CPython's
    [_PyUnicode_IsWhitespace]). *)
Definition isspace (c : codepoint) : bool :=
  ((9 <=? c) && (c <=? 13) || (28 <=? c) && (c <=? 32)
   || (c =? 133) || (c =? 160) || (c =? 5760)
   || (8192 <=? c) && (c <=? 8202)
   || (c =? 8232) || (c =? 8233) || (c =? 8239) || (c =? 8287)
   || (c =? 12288))%N.

Fixpoint lstrip (s : str) : str :=
  match s with
  | [] => []
  | c :: rest => if isspace c then lstrip rest else s
  end.

Definition rstrip (s : str) : str := rev (lstrip (rev s)).

(** [s.strip()] *)
Definition strip (s : str) : str := rstrip (lstrip s).

(** [a == b] on str values. *)
Fixpoint eqb (a b : str) : bool :=
  match a, b with
  | [], [] => true
  | x :: a', y :: b' => (x =? y)%N && eqb a' b'
  | _, _ => false
  end.

(** [x in options] for a list of str. *)
Definition mem (x : str) (options : list str) : bool :=
  existsb (eqb x) options.

Fixpoint starts_with (p s : str) : bool :=
  match p, s with
  | [], _ => true
  | x :: p', y :: s' => (x =? y)%N && starts_with p' s'
  | _ :: _, [] => false
  end.

(** [p in s] for two str values: substring search. *)
Fixpoint contains (p s : str) : bool :=
  starts_with p s
  || match s with
     | [] => false
     | _ :: s' => contains p s'
     end.

(** The substring relation that [contains] decides. *)
Definition Infix (p s : str) : Prop :=
  exists pre post, s = pre ++ p ++ post.

(** [s.split("\n")]: the lines of a text. *)
Fixpoint split_lines (s : str) : list str :=
  match s with
  | [] => [[]]
  | c :: rest =>
      if (c =? 10)%N then [] :: split_lines rest
      else match split_lines rest with
           | [] => [[c]]
           | l :: ls => (c :: l) :: ls
           end
  end.

Fixpoint digits (d : Decimal.uint) : str :=
  match d with
  | Decimal.Nil => []
  | Decimal.D0 d => 48%N :: digits d
  | Decimal.D1 d => 49%N :: digits d
  | Decimal.D2 d => 50%N :: digits d
  | Decimal.D3 d => 51%N :: digits d
  | Decimal.D4 d => 52%N :: digits d
  | Decimal.D5 d => 53%N :: digits d
  | Decimal.D6 d => 54%N :: digits d
  | Decimal.D7 d => 55%N :: digits d
  | Decimal.D8 d => 56%N :: digits d
  | Decimal.D9 d => 57%N :: digits d
  end.

(** [str(n)] for an int, as an f-string renders [{n}]: decimal, with a
    leading minus sign for a negative number. *)
Definition of_int (n : Z) : str :=
  match Z.to_int n with
  | Decimal.Pos d => digits d
  | Decimal.Neg d => 45%N :: digits d
  end.



(** A surrogate code point, which a str may hold on its own but UTF-8
    cannot encode. *)
Definition is_surrogate (c : codepoint) : bool :=
  ((55296 <=? c) && (c <=? 57343))%N.

(** [s.encode("utf-8")] succeeds. *)
Definition encodable (s : str) : bool :=
  forallb (fun c => negb (is_surrogate c)) s.

(** [c in s] for one character. *)
Definition has (c : codepoint) (s : str) : bool := existsb (N.eqb c) s.

End Text.

Import Text.

(** * Constants of the module *)

Definition LOCATION_OPTIONS : list str :=
  [lit "서울"; lit "대전"; lit "광주"; lit "구미"; lit "부울경"].

Definition DAY_OF_WEEK_OPTIONS : list str :=
  [lit "월"; lit "화"; lit "수"; lit "목"; lit "금"; lit "토"; lit "일"].

Definition DEFAULT_RESEND_REASON : str := lit "첨부 오류로 인한 재송부".

(** * [_build_email] *)

Definition _build_email
    (cardinal_number : Z) (location name : str) (nth_day month day : Z)
    (day_of_week : str) (resend : bool) (resend_reason : str) : str * str :=
  let base_subject :=
    lit "[SSAFY] " ++ of_int cardinal_number ++ lit "기 " ++ location
    ++ lit " 실습코치 " ++ name ++ lit " " ++ of_int nth_day
    ++ lit "일차 Wrap Up" in
  if resend then
    let title := base_subject ++ lit " 재송부" in
    let reason := or_else resend_reason DEFAULT_RESEND_REASON in
    let content :=
      (lit "안녕하십니까, " ++ of_int cardinal_number ++ lit "기 " ++ location
       ++ lit " 실습코치 " ++ name ++ lit "입니다." ++ nl ++ nl)
      ++ (of_int month ++ lit "월 " ++ of_int day ++ lit "일(" ++ day_of_week
          ++ lit ") " ++ of_int nth_day ++ lit "일차 Wrap Up보고서를 "
          ++ reason ++ lit " 사유로 재송부드립니다." ++ nl ++ nl)
      ++ (lit "특이사항" ++ nl)
      ++ (lit "- 해당 사항 없음." ++ nl ++ nl)
      ++ (lit "감사합니다." ++ nl)
      ++ (name ++ lit " 드림.") in
    (title, content)
  else
    let title := base_subject ++ lit " 송부" in
    let content :=
      (lit "안녕하십니까, " ++ of_int cardinal_number ++ lit "기 " ++ location
       ++ lit " 실습코치 " ++ name ++ lit "입니다." ++ nl ++ nl)
      ++ (of_int month ++ lit "월 " ++ of_int day ++ lit "일(" ++ day_of_week
          ++ lit ") " ++ of_int nth_day
          ++ lit "일차 Wrap Up 보고서를 첨부하여 송부드립니다." ++ nl ++ nl)
      ++ (lit "특이사항" ++ nl)
      ++ (lit "- 해당 사항 없음." ++ nl ++ nl)
      ++ (lit "감사합니다." ++ nl)
      ++ (name ++ lit " 드림.") in
    (title, content).

(** The text of a re-sent report with [reason] in its sentence, in one
    piece; [build_email_resend] below shows it is the body that
    [_build_email] makes. *)
Definition resend_body
    (cardinal_number : Z) (location name : str) (nth_day month day : Z)
    (day_of_week : str) (reason : str) : str :=
  lit "안녕하십니까, " ++ of_int cardinal_number ++ lit "기 " ++ location
  ++ lit " 실습코치 " ++ name ++ lit "입니다." ++ nl ++ nl
  ++ of_int month ++ lit "월 " ++ of_int day ++ lit "일(" ++ day_of_week
  ++ lit ") " ++ of_int nth_day ++ lit "일차 Wrap Up보고서를 "
  ++ reason ++ lit " 사유로 재송부드립니다." ++ nl ++ nl
  ++ lit "특이사항" ++ nl ++ lit "- 해당 사항 없음." ++ nl ++ nl
  ++ lit "감사합니다." ++ nl ++ name ++ lit " 드림.".

(** * Exceptions *)

(** The exceptions the store operations can raise on values and store
    states of the model: an int that does not fit SQLite's INTEGER, a
    str that UTF-8 cannot encode, and a statement on a file that has no
    [options] table.  Failures of the disk and the size limits of the
    engine are not part of the model. *)
Inductive exception := OverflowError | UnicodeEncodeError | OperationalError.

Inductive result (A : Type) :=
| Ok (a : A)
| Raise (e : exception).
Arguments Ok {A} a.
Arguments Raise {A} e.

Definition bind {A B : Type} (m : result A) (k : A -> result B) : result B :=
  match m with
  | Ok a => k a
  | Raise e => Raise e
  end.

Notation "x <- m ;; k" := (bind m (fun x => k))
  (at level 61, m at next level, right associativity).

(** * The settings store *)

Module Options.

(** The nine columns a save supplies and a load selects. *)
Record columns := {
  cardinal : Z;
  location : str;
  name : str;
  nth_day : Z;
  month : Z;
  day : Z;
  day_of_week : str;
  resend : Z;
  resend_reason : option str
}.

(** A row of table [options].  [saved_at] is the value of
    CURRENT_TIMESTAMP at the insert, in seconds.  The [id] column is
    never read; the rows of a table are kept in the order of their ids,
    which is the order of insertion. *)
Record row := {
  cols : columns;
  saved_at : Z
}.

End Options.

(** The database file: [None] while it has no [options] table. *)
Definition database := option (list Options.row).

(** SQLite stores an INTEGER in 64 bits, signed; Python's [sqlite3] raises
    OverflowError when asked to bind an int outside that range. *)
Definition fits_int64 (n : Z) : bool :=
  (- 2 ^ 63 <=? n) && (n <=? 2 ^ 63 - 1).

Definition bind_int (n : Z) : result Z :=
  if fits_int64 n then Ok n else Raise OverflowError.

(** A str is bound as UTF-8 text; Python's [sqlite3] raises
    UnicodeEncodeError when it holds a lone surrogate. *)
Definition bind_text (s : str) : result str :=
  if encodable s then Ok s else Raise UnicodeEncodeError.

(** [int(b)] for a bool. *)
Definition int_of_bool (b : bool) : Z := if b then 1 else 0.

(** [bool(n)] for an int. *)
Definition bool_of_int (n : Z) : bool := negb (n =? 0).

(** CREATE TABLE IF NOT EXISTS options (...) *)
Definition _init_db (db : database) : database :=
  match db with
  | None => Some []
  | Some rows => Some rows
  end.

(** INSERT INTO options (...) VALUES (?, ?, ?, ?, ?, ?, ?, ?, ?), at the
    clock reading [now].  The statement is prepared, then the parameters
    are bound one after the other in the order of the tuple, the first
    that cannot be bound raising its exception; then the row is inserted
    and the connection commits.  An exception leaves the file as it
    was. *)
Definition _save_options
    (cardinal_number : Z) (location name : str) (nth_day month day : Z)
    (day_of_week : str) (resend : bool) (resend_reason : str)
    (now : Z) (db : database) : result database :=
  match db with
  | None => Raise OperationalError
  | Some rows =>
      c <- bind_int cardinal_number ;;
      l <- bind_text location ;;
      nm <- bind_text name ;;
      n <- bind_int nth_day ;;
      m <- bind_int month ;;
      d <- bind_int day ;;
      dw <- bind_text day_of_week ;;
      r <- bind_int (int_of_bool resend) ;;
      rr <- bind_text resend_reason ;;
      Ok (Some (rows ++
        [{| Options.cols :=
              {| Options.cardinal := c;
                 Options.location := l;
                 Options.name := nm;
                 Options.nth_day := n;
                 Options.month := m;
                 Options.day := d;
                 Options.day_of_week := dw;
                 Options.resend := r;
                 Options.resend_reason := Some rr |};
            Options.saved_at := now |}]))
  end.

(** ORDER BY saved_at DESC LIMIT 1 over the rows in scan order: the row
    kept so far is replaced only by a row with a strictly later
    [saved_at], so among rows with equal [saved_at] the one scanned
    first, the oldest, is returned. *)
Fixpoint top1 (best : Options.row) (rows : list Options.row) : Options.row :=
  match rows with
  | [] => best
  | r :: rest =>
      top1 (if Options.saved_at best <? Options.saved_at r then r else best)
           rest
  end.

Definition order_by_saved_at_desc_limit_1
    (rows : list Options.row) : option Options.row :=
  match rows with
  | [] => None
  | r :: rest => Some (top1 r rest)
  end.

(** [dict(row) if row else None] of the selected columns. *)
Definition _load_latest_options (db : database) : result (option Options.columns) :=
  match db with
  | None => Raise OperationalError
  | Some rows =>
      Ok (option_map Options.cols (order_by_saved_at_desc_limit_1 rows))
  end.

(** The rows of the table, none while there is no table. *)
Definition rows_of (db : database) : list Options.row :=
  match db with
  | Some rows => rows
  | None => []
  end.

(** The columns a successful save writes. *)
Definition saved_columns
    (cardinal_number : Z) (location name : str) (nth_day month day : Z)
    (day_of_week : str) (resend : bool) (resend_reason : str)
  : Options.columns :=
  {| Options.cardinal := cardinal_number;
     Options.location := location;
     Options.name := name;
     Options.nth_day := nth_day;
     Options.month := month;
     Options.day := day;
     Options.day_of_week := day_of_week;
     Options.resend := int_of_bool resend;
     Options.resend_reason := Some resend_reason |}.

(** The row a successful save appends at the clock reading [now]. *)
Definition saved_row
    (cardinal_number : Z) (location name : str) (nth_day month day : Z)
    (day_of_week : str) (resend : bool) (resend_reason : str) (now : Z)
  : Options.row :=
  {| Options.cols :=
       saved_columns cardinal_number location name nth_day month day
         day_of_week resend resend_reason;
     Options.saved_at := now |}.

(** The four int parameters all fit an INTEGER. *)
Definition ints_fit (cardinal_number nth_day month day : Z) : bool :=
  fits_int64 cardinal_number && fits_int64 nth_day
  && fits_int64 month && fits_int64 day.

(** The four str parameters can all be encoded. *)
Definition texts_fit (location name day_of_week resend_reason : str) : bool :=
  encodable location && encodable name
  && encodable day_of_week && encodable resend_reason.

(** The stores reached from a new file by [_init_db] and any number of
    successful saves. *)
Inductive saved_only : database -> Prop :=
| saved_only_new : saved_only (_init_db None)
| saved_only_save cardinal_number location name nth_day month day
    day_of_week resend resend_reason now db db' :
    saved_only db ->
    _save_options cardinal_number location name nth_day month day
      day_of_week resend resend_reason now db = Ok db' ->
    saved_only db'.

(** * The form *)

Inductive entry_state := normal | disabled.

(** The Tk variables and widgets that [main] creates. *)
Record Form := {
  cardinal_var : str;
  location_var : str;
  name_var : str;
  nth_day_var : str;
  month_var : str;
  day_var : str;
  day_of_week_var : str;
  resend_var : bool;
  resend_reason_var : str;
  resend_reason_entry : entry_state;
  title_text : str;
  content_text : str
}.

(** A message box shown to the user. *)
Inductive dialog :=
| showerror (title message : str)
| showinfo (title message : str).

(** What the handlers read and write: the form, the database file, the
    message boxes shown so far (latest last) and the clipboard. *)
Record World := {
  form : Form;
  db : database;
  dialogs : list dialog;
  clipboard : option str
}.

Definition with_form (f : Form) (w : World) : World :=
  {| form := f; db := db w; dialogs := dialogs w; clipboard := clipboard w |}.

Definition with_db (d : database) (w : World) : World :=
  {| form := form w; db := d; dialogs := dialogs w; clipboard := clipboard w |}.

Definition show (d : dialog) (w : World) : World :=
  {| form := form w; db := db w; dialogs := dialogs w ++ [d];
     clipboard := clipboard w |}.

(** The three ways [_validate_common_inputs] returns [None], each after
    its own error box. *)
Inductive ValidationError := EmptyName | NotANumber | InvalidWeekday.

Definition error_dialog (e : ValidationError) : dialog :=
  match e with
  | EmptyName => showerror (lit "입력 오류") (lit "이름을 입력하세요.")
  | NotANumber => showerror (lit "입력 오류") (lit "숫자 입력란을 확인하세요.")
  | InvalidWeekday => showerror (lit "입력 오류") (lit "요일을 선택하세요.")
  end.

(** [datetime.now()], as far as [_today] looks at it; [weekday] is
    Monday = 0 ... Sunday = 6. *)
Record datetime := {
  dt_month : Z;
  dt_day : Z;
  dt_weekday : nat
}.

Definition _today (now : datetime) : option (Z * Z * str) :=
  match nth_error DAY_OF_WEEK_OPTIONS (dt_weekday now) with
  | Some dow => Some (dt_month now, dt_day now, dow)
  | None => None
  end.

Definition initial_form : Form :=
  {| cardinal_var := lit "0";
     location_var := nth 0 LOCATION_OPTIONS [];
     name_var := [];
     nth_day_var := lit "1";
     month_var := [];
     day_var := [];
     day_of_week_var := [];
     resend_var := false;
     resend_reason_var := [];
     resend_reason_entry := disabled;
     title_text := [];
     content_text := [] |}.

Definition on_toggle_resend (f : Form) : Form :=
  {| cardinal_var := cardinal_var f;
     location_var := location_var f;
     name_var := name_var f;
     nth_day_var := nth_day_var f;
     month_var := month_var f;
     day_var := day_var f;
     day_of_week_var := day_of_week_var f;
     resend_var := resend_var f;
     resend_reason_var := resend_reason_var f;
     resend_reason_entry := if resend_var f then normal else disabled;
     title_text := title_text f;
     content_text := content_text f |}.

Definition on_today (now : datetime) (f : Form) : option Form :=
  match _today now with
  | None => None
  | Some (m, d, dow) =>
      Some {| cardinal_var := cardinal_var f;
              location_var := location_var f;
              name_var := name_var f;
              nth_day_var := nth_day_var f;
              month_var := of_int m;
              day_var := of_int d;
              day_of_week_var := dow;
              resend_var := resend_var f;
              resend_reason_var := resend_reason_var f;
              resend_reason_entry := resend_reason_entry f;
              title_text := title_text f;
              content_text := content_text f |}
  end.

Definition on_reset (f : Form) : Form :=
  on_toggle_resend
    {| cardinal_var := lit "0";
       location_var := nth 0 LOCATION_OPTIONS [];
       name_var := [];
       nth_day_var := lit "1";
       month_var := [];
       day_var := [];
       day_of_week_var := [];
       resend_var := false;
       resend_reason_var := [];
       resend_reason_entry := resend_reason_entry f;
       title_text := [];
       content_text := [] |}.

Definition set_texts (title content : str) (f : Form) : Form :=
  {| cardinal_var := cardinal_var f;
     location_var := location_var f;
     name_var := name_var f;
     nth_day_var := nth_day_var f;
     month_var := month_var f;
     day_var := day_var f;
     day_of_week_var := day_of_week_var f;
     resend_var := resend_var f;
     resend_reason_var := resend_reason_var f;
     resend_reason_entry := resend_reason_entry f;
     title_text := title;
     content_text := content |}.

(** [_copy_text]: a Tk text widget hands back its text with a final
    newline. *)
Definition _copy_text (widget : str) (w : World) : World :=
  let text := strip (widget ++ nl) in
  if truthy text then
    show (showinfo (lit "복사") (lit "클립보드에 복사되었습니다."))
      {| form := form w; db := db w; dialogs := dialogs w;
         clipboard := Some text |}
  else
    show (showinfo (lit "복사") (lit "복사할 내용이 없습니다.")) w.

Definition on_load_options (w : World) : result World :=
  data <- _load_latest_options (db w) ;;
  match data with
  | None => Ok (show (showinfo (lit "불러오기") (lit "저장된 옵션이 없습니다.")) w)
  | Some data =>
      let f := form w in
      let loaded :=
        on_toggle_resend
          {| cardinal_var := of_int (Options.cardinal data);
             location_var := Options.location data;
             name_var := Options.name data;
             nth_day_var := of_int (Options.nth_day data);
             month_var := of_int (Options.month data);
             day_var := of_int (Options.day data);
             day_of_week_var := Options.day_of_week data;
             resend_var := bool_of_int (Options.resend data);
             resend_reason_var :=
               match Options.resend_reason data with
               | Some reason => or_else reason []
               | None => []
               end;
             resend_reason_entry := resend_reason_entry f;
             title_text := title_text f;
             content_text := content_text f |} in
      Ok (show (showinfo (lit "불러오기")
                  (lit "마지막으로 저장한 옵션을 불러왔습니다."))
            (with_form loaded w))
  end.

Section Handlers.

(** Python's [int] on a str: [None] stands for ValueError. *)
Variable int : str -> option Z.

Definition _validate_common_inputs (f : Form)
  : ValidationError + (Z * Z * Z * Z * str * str) :=
  let name := strip (name_var f) in
  if negb (truthy name) then inl EmptyName
  else
    match int (cardinal_var f) with
    | None => inl NotANumber
    | Some cardinal =>
    match int (nth_day_var f) with
    | None => inl NotANumber
    | Some nth =>
    match int (month_var f) with
    | None => inl NotANumber
    | Some month =>
    match int (day_var f) with
    | None => inl NotANumber
    | Some day =>
        let dow := strip (day_of_week_var f) in
        if negb (mem dow DAY_OF_WEEK_OPTIONS) then inl InvalidWeekday
        else inr (cardinal, nth, month, day, dow, name)
    end end end end.

Definition on_generate (w : World) : World :=
  match _validate_common_inputs (form w) with
  | inl e => show (error_dialog e) w
  | inr (cardinal, nth, month, day, dow, name) =>
      let f := form w in
      let '(title, content) :=
        _build_email cardinal (location_var f) name nth month day dow
          (resend_var f) (strip (resend_reason_var f)) in
      with_form (set_texts title content f) w
  end.

Definition on_save_options (now : Z) (w : World) : result World :=
  match _validate_common_inputs (form w) with
  | inl e => Ok (show (error_dialog e) w)
  | inr (cardinal, nth, month, day, dow, name) =>
      let f := form w in
      d <- _save_options cardinal (location_var f) name nth month day dow
             (resend_var f) (strip (resend_reason_var f)) now (db w) ;;
      Ok (show (showinfo (lit "저장") (lit "옵션을 저장했습니다."))
            (with_db d w))
  end.

End Handlers.

(** * The user at the form *)

(** What the widgets let the user do.  The four spin boxes and the name
    entry take any text.  The two combo boxes are read-only: the user
    picks one of the listed values.  The reason entry takes text only
    while its state is [normal].  The check box flips [resend_var],
    whose write trace runs [on_toggle_resend]. *)
Inductive Event :=
| EditCardinal (s : str)
| ChooseLocation (i : nat)
| EditName (s : str)
| EditNthDay (s : str)
| EditMonth (s : str)
| EditDay (s : str)
| ChooseDayOfWeek (i : nat)
| ClickResend
| EditResendReason (s : str)
| ClickToday (now : datetime)
| ClickGenerate
| ClickReset
| ClickSave (now : Z)
| ClickLoad
| ClickCopyTitle
| ClickCopyContent.

Definition edit (e : Event) (f : Form) : Form :=
  let '(Build_Form c l n nd m d dw r rr re t ct) := f in
  match e with
  | EditCardinal s => Build_Form s l n nd m d dw r rr re t ct
  | ChooseLocation i =>
      match nth_error LOCATION_OPTIONS i with
      | Some v => Build_Form c v n nd m d dw r rr re t ct
      | None => f
      end
  | EditName s => Build_Form c l s nd m d dw r rr re t ct
  | EditNthDay s => Build_Form c l n s m d dw r rr re t ct
  | EditMonth s => Build_Form c l n nd s d dw r rr re t ct
  | EditDay s => Build_Form c l n nd m s dw r rr re t ct
  | ChooseDayOfWeek i =>
      match nth_error DAY_OF_WEEK_OPTIONS i with
      | Some v => Build_Form c l n nd m d v r rr re t ct
      | None => f
      end
  | ClickResend =>
      on_toggle_resend (Build_Form c l n nd m d dw (negb r) rr re t ct)
  | EditResendReason s =>
      match re with
      | normal => Build_Form c l n nd m d dw r s re t ct
      | disabled => f
      end
  | _ => f
  end.

Section Session.

Variable int : str -> option Z.

(** One event handled by the main loop.  An exception raised inside a
    button's callback is reported by Tk and the loop goes on. *)
Definition step (w : World) (e : Event) : World :=
  match e with
  | ClickToday now =>
      match on_today now (form w) with
      | Some f => with_form f w
      | None => w
      end
  | ClickGenerate => on_generate int w
  | ClickReset => with_form (on_reset (form w)) w
  | ClickSave now =>
      match on_save_options int now w with
      | Ok w' => w'
      | Raise _ => w
      end
  | ClickLoad =>
      match on_load_options w with
      | Ok w' => w'
      | Raise _ => w
      end
  | ClickCopyTitle => _copy_text (title_text (form w)) w
  | ClickCopyContent => _copy_text (content_text (form w)) w
  | _ => with_form (edit e (form w)) w
  end.

Definition run (w : World) (events : list Event) : World :=
  fold_left step events w.

End Session.

(** [main] up to the main loop, started on the database file [file]. *)
Definition main (file : database) : World :=
  {| form := on_toggle_resend initial_form;
     db := _init_db file;
     dialogs := [];
     clipboard := None |}.

(** An instance of [int] that reads the ASCII digits.  As [int] does,
    it drops white space at both ends ([str.isspace] apart from the four
    separators U+001C to U+001F), reads an optional sign and then
    decimal digits with single underscores between them, and refuses
    more than 4300 digits, the interpreter's default limit.  The digits
    of other scripts, which [int] reads as well, are refused here.  The
    forms of the instances below are run with it. *)
Definition int_space (c : codepoint) : bool :=
  (isspace c && negb ((28 <=? c) && (c <=? 31)))%N.

Fixpoint int_lstrip (s : str) : str :=
  match s with
  | [] => []
  | c :: rest => if int_space c then int_lstrip rest else s
  end.

Definition int_strip (s : str) : str :=
  rev (int_lstrip (rev (int_lstrip s))).

(** [room] is the number of digits that may still be read. *)
Fixpoint int_digits (acc : Z) (after_digit : bool) (room : nat) (s : str)
  : option Z :=
  match s with
  | [] => if after_digit then Some acc else None
  | c :: rest =>
      if ((48 <=? c) && (c <=? 57))%N then
        match room with
        | O => None
        | S room' =>
            int_digits (10 * acc + Z.of_N (c - 48)) true room' rest
        end
      else if ((c =? 95)%N && after_digit)%bool then
        int_digits acc false room rest
      else None
  end.

Definition int_ascii (s : str) : option Z :=
  match int_strip s with
  | 45%N :: rest => option_map Z.opp (int_digits 0 false 4300 rest)
  | 43%N :: rest => int_digits 0 false 4300 rest
  | rest => int_digits 0 false 4300 rest
  end.

(** The form with another text in [location_var]. *)
Definition with_location (l : str) (f : Form) : Form :=
  let '(Build_Form c _ n nd m d dw r rr re t ct) := f in
  Build_Form c l n nd m d dw r rr re t ct.

(** The location stored in every row is one of LOCATION_OPTIONS. *)
Definition locations_listed (db : database) : Prop :=
  forall r, In r (rows_of db) ->
    mem (Options.location (Options.cols r)) LOCATION_OPTIONS = true.

(** What holds of the location throughout a session. *)
Definition location_listed (w : World) : Prop :=
  mem (location_var (form w)) LOCATION_OPTIONS = true
  /\ locations_listed (db w).

(** * Notions used to state what the code keeps *)

(** A clock whose readings, taken one after the other, never go back. *)
Definition never_goes_back (clock : nat -> Z) : Prop :=
  forall t t', (t <= t')%nat -> clock t <= clock t'.

(** A text without a newline. *)
Definition single_line (s : str) : bool := negb (has 10%N s).

(** Puts [a] in front of the first of the lines [ls]. *)
Definition glue (a : str) (ls : list str) : list str :=
  match ls with
  | [] => [a]
  | l :: ls' => (a ++ l) :: ls'
  end.

(** A text that [strip] would leave as it is and that is not empty: it
    neither starts nor ends with white space. *)
Definition trimmed_nonempty (s : str) : Prop :=
  s <> []
  /\ (forall c rest, s = c :: rest -> isspace c = false)
  /\ (forall c front, s = front ++ [c] -> isspace c = false).

(** The last row of a table, in the order of insertion. *)
Definition last_row (rows : list Options.row) : option Options.row :=
  match rev rows with
  | [] => None
  | r :: _ => Some r
  end.

(** The stores reached from a new file by saves that each happen at a
    clock reading later than every row already there. *)
Inductive saved_ascending : database -> Prop :=
| saved_ascending_new : saved_ascending (_init_db None)
| saved_ascending_save cardinal_number location name nth_day month day
    day_of_week resend resend_reason now db db' :
    saved_ascending db ->
    (forall r, In r (rows_of db) -> Options.saved_at r < now) ->
    _save_options cardinal_number location name nth_day month day
      day_of_week resend resend_reason now db = Ok db' ->
    saved_ascending db'.

(** What [on_save_options] lets into the store: a name that is trimmed
    and not empty, a weekday of DAY_OF_WEEK_OPTIONS, resend as 0 or 1, a
    reason that is not NULL. *)
Definition validated_row (r : Options.row) : Prop :=
  trimmed_nonempty (Options.name (Options.cols r))
  /\ In (Options.day_of_week (Options.cols r)) DAY_OF_WEEK_OPTIONS
  /\ (Options.resend (Options.cols r) = 0
      \/ Options.resend (Options.cols r) = 1)
  /\ Options.resend_reason (Options.cols r) <> None.

(** The number of clicks on the save button among the events. *)
Definition count_saves (events : list Event) : nat :=
  List.length
    (filter (fun e => match e with ClickSave _ => true | _ => false end)
       events).

(** The reason entry is enabled exactly while resend is checked. *)
Definition entry_follows_resend (f : Form) : Prop :=
  resend_reason_entry f = (if resend_var f then normal else disabled).

(** A filled-in form and a world around it, for the instances at the end. *)
Definition example_form : Form :=
  form (run int_ascii (main None)
          [EditCardinal (lit " 13"); EditName (lit "  홍길동 ");
           EditNthDay (lit "5"); EditMonth (lit "3"); EditDay (lit "14");
           ChooseDayOfWeek 3; ClickResend; EditResendReason (lit " 파일 누락 ")]).

Definition example_world (file : database) : World :=
  {| form := example_form; db := file; dialogs := []; clipboard := None |}.

(** * Text: substring search *)

Module TextFacts.

Lemma starts_with_spec (p s : str) :
  starts_with p s = true <-> exists post, s = p ++ post.
Proof.
  revert s; induction p as [|x p IH]; intros s; simpl.
  - split; [intros _; now exists s | reflexivity].
  - destruct s as [|y s].
    + split; [discriminate | intros [post H]; discriminate].
    + rewrite andb_true_iff, N.eqb_eq, IH. split.
      * intros [-> [post ->]]. now exists post.
      * intros [post H]. injection H as -> ->. split; [reflexivity | now exists post].
Qed.

Lemma contains_spec (p s : str) :
  contains p s = true <-> Infix p s.
Proof.
  unfold Infix. induction s as [|c s IH].
  - simpl. rewrite orb_false_r, starts_with_spec. split.
    + intros [post H]. now exists [], post.
    + intros [pre [post H]]. destruct pre; simpl in H.
      * now exists post.
      * discriminate.
  - change (contains p (c :: s))
      with (starts_with p (c :: s) || contains p s).
    rewrite orb_true_iff, IH, starts_with_spec. split.
    + intros [[post H] | [pre [post H]]].
      * now exists [], post.
      * exists (c :: pre), post. simpl. now rewrite H.
    + intros [pre [post H]]. destruct pre as [|c' pre]; simpl in H.
      * left. now exists post.
      * right. injection H as _ H. now exists pre, post.
Qed.

Lemma Infix_here (p post : str) : Infix p (p ++ post).
Proof. now exists [], post. Qed.

Lemma Infix_refl (p : str) : Infix p p.
Proof. exists [], []. simpl. now rewrite app_nil_r. Qed.

Lemma Infix_skip (p a b : str) : Infix p b -> Infix p (a ++ b).
Proof.
  intros [pre [post ->]]. exists (a ++ pre), post. now rewrite <- app_assoc.
Qed.












Lemma digits_range (d : Decimal.uint) (c : codepoint) :
  In c (digits d) -> (48 <= c <= 57)%N.
Proof.
  induction d; simpl; intros H; try contradiction;
    (destruct H as [<- | H]; [lia | auto]).
Qed.

Lemma of_int_range (n : Z) (c : codepoint) :
  In c (of_int n) -> (c = 45 \/ 48 <= c <= 57)%N.
Proof.
  unfold of_int. destruct (Z.to_int n); simpl.
  - intros H. right. eapply digits_range; eassumption.
  - intros [<- | H]; [now left | right; eapply digits_range; eassumption].
Qed.


End TextFacts.

Import TextFacts.

(** Finds [p] as one of the pieces of a text written with [++]. *)
Ltac find_piece :=
  repeat rewrite <- app_assoc;
  repeat first [ apply Infix_here | apply Infix_refl | apply Infix_skip ].

(** * The rendered mail *)

Section Rendering.

Variables (cardinal_number : Z) (location name : str).
Variables (nth_day month day : Z) (day_of_week : str).

Local Abbreviation resend_text :=
  (resend_body cardinal_number location name nth_day month day day_of_week).


Lemma build_email_resend (resend_reason : str) :
  snd (_build_email cardinal_number location name nth_day month day
         day_of_week true resend_reason)
  = resend_text (or_else resend_reason DEFAULT_RESEND_REASON).
Proof.
  unfold _build_email, resend_body. cbv beta zeta iota. unfold snd.
  now repeat rewrite <- app_assoc.
Qed.

Lemma resend_body_has_reason (reason : str) :
  Infix reason (resend_text reason).
Proof. unfold resend_body. find_piece. Qed.

(** A reason that is only white space reaches [_build_email] as it is
    when a caller does not trim it: [or] tests for the empty str. *)
Lemma build_email_untrimmed_reason (c : codepoint) (reason : str) :
  snd (_build_email cardinal_number location name nth_day month day
         day_of_week true (c :: reason))
  = resend_text (c :: reason).
Proof. now rewrite build_email_resend. Qed.




Lemma default_reason_text :
  DEFAULT_RESEND_REASON = lit "첨부 오류로 인한 재송부".
Proof. vm_compute. reflexivity. Qed.

(** With no reason given, the default one is written. *)
Lemma build_email_empty_reason :
  Infix (lit "첨부 오류로 인한 재송부")
    (snd (_build_email cardinal_number location name nth_day month day
            day_of_week true [])).
Proof.
  rewrite build_email_resend.
  change (or_else [] DEFAULT_RESEND_REASON) with DEFAULT_RESEND_REASON.
  rewrite default_reason_text. apply resend_body_has_reason.
Qed.


End Rendering.

(** * The example of the specification *)

(** C1, amended: for cohort 13, 서울, 홍길동, day 5, 3/14 (목), not a
    re-send, the title is the expected one; the second line of the body
    is blank and the report sentence is its third line. *)
Theorem C1_example_mail :
  let mail := _build_email 13 (lit "서울") (lit "홍길동") 5 3 14 (lit "목")
                false [] in
  fst mail = lit "[SSAFY] 13기 서울 실습코치 홍길동 5일차 Wrap Up 송부"
  /\ nth_error (split_lines (snd mail)) 1 = Some []
  /\ nth_error (split_lines (snd mail)) 2
     = Some (lit "3월 14일(목) 5일차 Wrap Up 보고서를 첨부하여 송부드립니다.").
Proof. vm_compute. repeat split. Qed.

(** C1 as stated fails: the second line of that body is not the report
    sentence. *)
Lemma C1_second_line_is_not_the_report_sentence :
  nth_error
    (split_lines
       (snd (_build_email 13 (lit "서울") (lit "홍길동") 5 3 14 (lit "목")
               false [])))
    1
  <> Some (lit "3월 14일(목) 5일차 Wrap Up 보고서를 첨부하여 송부드립니다.").
Proof. vm_compute. discriminate. Qed.



(** * The settings store: saving and loading *)


Lemma bool_of_int_of_bool (b : bool) : bool_of_int (int_of_bool b) = b.
Proof. now destruct b. Qed.

Lemma int_of_bool_range (b : bool) : int_of_bool b = 0 \/ int_of_bool b = 1.
Proof. destruct b; [now right | now left]. Qed.

Lemma bind_int_of_bool (b : bool) : bind_int (int_of_bool b) = Ok (int_of_bool b).
Proof. now destruct b. Qed.

(** ** The query *)

Lemma top1_In (rows : list Options.row) :
  forall best, In (top1 best rows) (best :: rows).
Proof.
  induction rows as [|r rows IH]; intros best; simpl.
  - now left.
  - destruct (IH (if Options.saved_at best <? Options.saved_at r
                  then r else best)) as [H | H].
    + destruct (Options.saved_at best <? Options.saved_at r);
        [right; left | left]; exact H.
    + right; right; exact H.
Qed.

Lemma top1_ge_best (rows : list Options.row) :
  forall best, Options.saved_at best <= Options.saved_at (top1 best rows).
Proof.
  induction rows as [|r rows IH]; intros best; simpl; [lia|].
  specialize (IH (if Options.saved_at best <? Options.saved_at r
                  then r else best)).
  destruct (Options.saved_at best <? Options.saved_at r) eqn:E; [|exact IH].
  apply Z.ltb_lt in E. lia.
Qed.

Lemma top1_max (rows : list Options.row) :
  forall best r, In r (best :: rows) ->
    Options.saved_at r <= Options.saved_at (top1 best rows).
Proof.
  induction rows as [|r0 rows IH]; intros best r Hin.
  - destruct Hin as [<- | []]. simpl. lia.
  - simpl.
    pose proof (top1_ge_best rows
                  (if Options.saved_at best <? Options.saved_at r0
                   then r0 else best)) as G.
    destruct Hin as [E | [E | Hin]].
    + subst r.
      destruct (Options.saved_at best <? Options.saved_at r0) eqn:E;
        [|exact G]. apply Z.ltb_lt in E. lia.
    + subst r.
      destruct (Options.saved_at best <? Options.saved_at r0) eqn:E;
        [exact G|]. apply Z.ltb_ge in E. lia.
    + apply IH. now right.
Qed.

(** A row newer than all the others is the one selected. *)
Lemma top1_newest (new : Options.row) (rows : list Options.row) :
  forall best,
    Options.saved_at best < Options.saved_at new ->
    (forall r, In r rows -> Options.saved_at r < Options.saved_at new) ->
    top1 best (rows ++ [new]) = new.
Proof.
  induction rows as [|r rows IH]; intros best Hb Hr; simpl.
  - apply Z.ltb_lt in Hb. now rewrite Hb.
  - apply IH.
    + destruct (Options.saved_at best <? Options.saved_at r);
        [apply Hr; now left | exact Hb].
    + intros r' H. apply Hr. now right.
Qed.

(** Among rows of equal [saved_at] the first one stays selected. *)
Lemma top1_first_of_equals (rows : list Options.row) :
  forall best,
    (forall r, In r rows -> Options.saved_at r <= Options.saved_at best) ->
    top1 best rows = best.
Proof.
  induction rows as [|r rows IH]; intros best Hr; simpl; [reflexivity|].
  assert ((Options.saved_at best <? Options.saved_at r) = false) as E.
  { apply Z.ltb_ge. apply Hr. now left. }
  rewrite E. apply IH. intros r' H. apply Hr. now right.
Qed.

Lemma select_newest (new : Options.row) (rows : list Options.row) :
  (forall r, In r rows -> Options.saved_at r < Options.saved_at new) ->
  order_by_saved_at_desc_limit_1 (rows ++ [new]) = Some new.
Proof.
  intros Hr. destruct rows as [|r rows]; [reflexivity|].
  simpl. f_equal. apply top1_newest.
  - apply Hr. now left.
  - intros r' H. apply Hr. now right.
Qed.

(** What the query returns is a row of the table with the greatest
    [saved_at]. *)
Lemma select_is_maximal (rows : list Options.row) (r : Options.row) :
  order_by_saved_at_desc_limit_1 rows = Some r ->
  In r rows
  /\ forall r', In r' rows -> Options.saved_at r' <= Options.saved_at r.
Proof.
  destruct rows as [|best rows]; [discriminate|].
  simpl. intros H. injection H as <-. split.
  - apply top1_In.
  - apply top1_max.
Qed.

Lemma select_none (rows : list Options.row) :
  order_by_saved_at_desc_limit_1 rows = None <-> rows = [].
Proof.
  destruct rows; simpl; split; intros H; try reflexivity; discriminate.
Qed.

(** ** One save *)

Section Saving.

Variables (cardinal_number : Z) (location name : str).
Variables (nth_day month day : Z) (day_of_week : str).
Variables (resend : bool) (resend_reason : str).

Local Abbreviation fitting := (ints_fit cardinal_number nth_day month day).
Local Abbreviation encoding :=
  (texts_fit location name day_of_week resend_reason).
Local Abbreviation new_row :=
  (saved_row cardinal_number location name nth_day month day day_of_week
     resend resend_reason).

(** Takes the binding of the nine parameters apart, in their order. *)
Ltac bindings :=
  unfold ints_fit, texts_fit, _save_options;
  rewrite bind_int_of_bool; unfold bind_int, bind_text;
  destruct (fits_int64 cardinal_number);
  destruct (encodable location);
  destruct (encodable name);
  destruct (fits_int64 nth_day);
  destruct (fits_int64 month);
  destruct (fits_int64 day);
  destruct (encodable day_of_week);
  destruct (encodable resend_reason);
  cbn [bind andb].

Lemma save_fitting (now : Z) (rows : list Options.row) :
  fitting = true ->
  encoding = true ->
  _save_options cardinal_number location name nth_day month day day_of_week
    resend resend_reason now (Some rows)
  = Ok (Some (rows ++ [new_row now])).
Proof. bindings; intros H1 H2; try discriminate; reflexivity. Qed.

Lemma save_overflowing (now : Z) (rows : list Options.row) :
  fitting = false ->
  encoding = true ->
  _save_options cardinal_number location name nth_day month day day_of_week
    resend resend_reason now (Some rows)
  = Raise OverflowError.
Proof. bindings; intros H1 H2; try discriminate; reflexivity. Qed.

Lemma save_unencodable (now : Z) (rows : list Options.row) :
  fitting = true ->
  encoding = false ->
  _save_options cardinal_number location name nth_day month day day_of_week
    resend resend_reason now (Some rows)
  = Raise UnicodeEncodeError.
Proof. bindings; intros H1 H2; try discriminate; reflexivity. Qed.

(** A save with a parameter that cannot be bound raises and returns no
    new store. *)
Lemma save_refused (now : Z) (rows : list Options.row) :
  fitting && encoding = false ->
  exists e,
    _save_options cardinal_number location name nth_day month day
      day_of_week resend resend_reason now (Some rows)
    = Raise e
    /\ (e = OverflowError \/ e = UnicodeEncodeError).
Proof.
  bindings; intros H; try discriminate;
    eexists; (split; [reflexivity|]); auto.
Qed.

Lemma save_inv (now : Z) (db db' : database) :
  _save_options cardinal_number location name nth_day month day day_of_week
    resend resend_reason now db = Ok db' ->
  exists rows,
    db = Some rows /\ fitting = true
    /\ db' = Some (rows ++ [new_row now]).
Proof.
  destruct db as [rows|]; [|discriminate].
  intros H. exists rows.
  destruct fitting eqn:E1; destruct encoding eqn:E2.
  - rewrite (save_fitting now rows E1 E2) in H. injection H as <-. auto.
  - rewrite (save_unencodable now rows E1 E2) in H. discriminate.
  - rewrite (save_overflowing now rows E1 E2) in H. discriminate.
  - destruct (save_refused now rows) as [e [He _]].
    + now rewrite E1.
    + rewrite He in H. discriminate.
Qed.

Lemma save_inv_texts (now : Z) (db db' : database) :
  _save_options cardinal_number location name nth_day month day day_of_week
    resend resend_reason now db = Ok db' ->
  encoding = true.
Proof.
  destruct db as [rows|]; [|discriminate].
  intros H. destruct encoding eqn:E2; [reflexivity|].
  destruct (save_refused now rows) as [e [He _]].
  - rewrite E2. apply andb_false_r.
  - rewrite He in H. discriminate.
Qed.

End Saving.

(** ** Stores written by saves only *)


Lemma saved_only_resend (db : database) :
  saved_only db ->
  forall r, In r (rows_of db) ->
    Options.resend (Options.cols r) = 0 \/ Options.resend (Options.cols r) = 1.
Proof.
  induction 1 as [|c l n nd m d dw b rr now db db' Hdb IH Hsave];
    intros r Hin.
  - contradiction.
  - apply save_inv in Hsave. destruct Hsave as [rows [-> [_ ->]]].
    simpl in Hin. apply in_app_or in Hin. destruct Hin as [Hin | [<- | []]].
    + now apply IH.
    + simpl. apply int_of_bool_range.
Qed.

Section StoreClaims.

Variables (cardinal_number : Z) (location name : str).
Variables (nth_day month day : Z) (day_of_week : str).
Variables (resend : bool) (resend_reason : str).

(** C2, amended: for every FieldSet whose four integers fit SQLite's
    64-bit INTEGER and whose four texts hold no lone surrogate, after
    [_init_db] and a save on a store whose rows are all older than the
    save, the load returns a record equal to the FieldSet in every
    field, resend as 1 for true and 0 for false; the row's saved_at is
    the clock's reading at the save, so that, the clock never going
    back, it is not before the reading taken just before the save. *)
Theorem C2_save_then_load_round_trip
    (file : database) (clock : nat -> Z) (t_before t_save : nat) :
  ints_fit cardinal_number nth_day month day = true ->
  texts_fit location name day_of_week resend_reason = true ->
  never_goes_back clock ->
  (t_before <= t_save)%nat ->
  (forall r, In r (rows_of file) -> Options.saved_at r < clock t_save) ->
  exists db',
    _save_options cardinal_number location name nth_day month day
      day_of_week resend resend_reason (clock t_save) (_init_db file)
    = Ok db'
    /\ _load_latest_options db'
       = Ok (Some {| Options.cardinal := cardinal_number;
                     Options.location := location;
                     Options.name := name;
                     Options.nth_day := nth_day;
                     Options.month := month;
                     Options.day := day;
                     Options.day_of_week := day_of_week;
                     Options.resend := if resend then 1 else 0;
                     Options.resend_reason := Some resend_reason |})
    /\ bool_of_int (if resend then 1 else 0) = resend
    /\ exists r,
         rows_of db' = rows_of file ++ [r]
         /\ Options.saved_at r = clock t_save
         /\ clock t_before <= Options.saved_at r.
Proof.
  intros Hfit Htexts Hclock Hticks Hold.
  assert (_init_db file = Some (rows_of file)) as E by now destruct file.
  rewrite E.
  exists (Some (rows_of file ++
                [saved_row cardinal_number location name nth_day month day
                   day_of_week resend resend_reason (clock t_save)])).
  split; [now apply save_fitting|]. split; [|split].
  - unfold _load_latest_options. rewrite select_newest; [reflexivity|].
    exact Hold.
  - now destruct resend.
  - eexists. split; [reflexivity|]. split; [reflexivity|].
    apply Hclock. exact Hticks.
Qed.

(** C9, amended: on a store that has its table, a save whose four
    integers fit SQLite's 64-bit INTEGER and whose four texts hold no
    lone surrogate appends exactly one row after the rows already there,
    which stay as they were; any other save raises OverflowError or
    UnicodeEncodeError and writes nothing; [_init_db] keeps every row of
    an existing table and running it twice is the same as once. *)
Theorem C9_save_appends_and_init_keeps (rows : list Options.row) (now : Z) :
  (ints_fit cardinal_number nth_day month day = true ->
   texts_fit location name day_of_week resend_reason = true ->
   _save_options cardinal_number location name nth_day month day
     day_of_week resend resend_reason now (Some rows)
   = Ok (Some (rows ++
               [saved_row cardinal_number location name nth_day month day
                  day_of_week resend resend_reason now])))
  /\ (ints_fit cardinal_number nth_day month day
      && texts_fit location name day_of_week resend_reason = false ->
      exists e,
        _save_options cardinal_number location name nth_day month day
          day_of_week resend resend_reason now (Some rows)
        = Raise e
        /\ (e = OverflowError \/ e = UnicodeEncodeError))
  /\ _init_db (Some rows) = Some rows
  /\ forall file, _init_db (_init_db file) = _init_db file.
Proof.
  split; [apply save_fitting|]. split; [apply save_refused|].
  split; [reflexivity|]. now intros [file|].
Qed.

(** C10: a save that succeeds appends a row whose resend column is the
    integer 1 when resend is true and 0 when it is false; in a store
    written by saves only every row has resend 0 or 1; the load that
    follows returns a record, with resend as the integer 0 or 1, and
    when the rows already there were older it returns the record just
    saved, with resend 1 for true and 0 for false. *)
Theorem C10_resend_is_stored_as_0_or_1 (db db' : database) (now : Z) :
  saved_only db ->
  _save_options cardinal_number location name nth_day month day
    day_of_week resend resend_reason now db = Ok db' ->
  (exists r,
     rows_of db' = rows_of db ++ [r]
     /\ Options.resend (Options.cols r) = (if resend then 1 else 0))
  /\ (forall r, In r (rows_of db') ->
        Options.resend (Options.cols r) = 0
        \/ Options.resend (Options.cols r) = 1)
  /\ (exists data,
        _load_latest_options db' = Ok (Some data)
        /\ (Options.resend data = 0 \/ Options.resend data = 1))
  /\ ((forall r, In r (rows_of db) -> Options.saved_at r < now) ->
      exists data,
        _load_latest_options db' = Ok (Some data)
        /\ Options.resend data = (if resend then 1 else 0)).
Proof.
  intros Hdb Hsave.
  assert (saved_only db') as Hdb'
    by (eapply saved_only_save; eassumption).
  apply save_inv in Hsave. destruct Hsave as [rows [-> [_ ->]]].
  split; [|split; [|split]].
  - eexists. split; [reflexivity|]. now destruct resend.
  - now apply saved_only_resend.
  - cbn [_load_latest_options].
    destruct (order_by_saved_at_desc_limit_1
                (rows ++
                 [saved_row cardinal_number location name nth_day month day
                    day_of_week resend resend_reason now]))
      as [r|] eqn:E.
    + exists (Options.cols r). split; [reflexivity|].
      apply select_is_maximal in E.
      apply (saved_only_resend _ Hdb'). apply E.
    + apply select_none in E. now apply app_eq_nil in E.
  - intros Hold. eexists. cbn [_load_latest_options].
    rewrite select_newest by exact Hold.
    split; [reflexivity|]. now destruct resend.
Qed.

End StoreClaims.

(** C8: a load from a freshly initialised store, never saved to, returns
    the empty result [None] without raising; the load button then
    reports that nothing is stored, in an information box. *)
Theorem C8_fresh_store_loads_no_record :
  _load_latest_options (_init_db None) = Ok None
  /\ on_load_options (main None)
     = Ok (show (showinfo (lit "불러오기") (lit "저장된 옵션이 없습니다."))
             (main None)).
Proof. split; reflexivity. Qed.

(** C3 fails on the code: two different FieldSets saved within the same
    second of the clock; the load returns the first one saved. *)
Theorem C3_saves_in_one_second_load_the_first :
  (db1 <- _save_options 13 (lit "서울") (lit "홍길동") 5 3 14 (lit "목")
            false [] 1700000000 (_init_db None) ;;
   db2 <- _save_options 13 (lit "대전") (lit "홍길동") 6 3 15 (lit "금")
            false [] 1700000000 db1 ;;
   _load_latest_options db2)
  = Ok (Some (saved_columns 13 (lit "서울") (lit "홍길동") 5 3 14 (lit "목")
                false []))
  /\ saved_columns 13 (lit "서울") (lit "홍길동") 5 3 14 (lit "목") false []
     <> saved_columns 13 (lit "대전") (lit "홍길동") 6 3 15 (lit "금")
          false [].
Proof. split; [vm_compute; reflexivity | vm_compute; discriminate]. Qed.

(** C2 as stated fails: a cohort number of 2^63 is not stored. *)
Lemma C2_cohort_beyond_int64_is_not_saved :
  _save_options (2 ^ 63) (lit "서울") (lit "홍길동") 5 3 14 (lit "목")
    false [] 1700000000 (_init_db None)
  = Raise OverflowError
  /\ _load_latest_options (_init_db None) = Ok None.
Proof. split; vm_compute; reflexivity. Qed.

Lemma C2_round_trip_witness :
  let earlier :=
    Some [saved_row 12 (lit "대전") (lit "김철수") 4 3 13 (lit "수") false []
            1699900000] in
  let clock := fun t : nat => 1700000000 + Z.of_nat t in
  exists db',
    _save_options 13 (lit "서울") (lit "홍길동") 5 3 14 (lit "목")
      true (lit "파일 누락") (clock 5%nat) (_init_db earlier) = Ok db'
    /\ _load_latest_options db'
       = Ok (Some {| Options.cardinal := 13;
                     Options.location := lit "서울";
                     Options.name := lit "홍길동";
                     Options.nth_day := 5;
                     Options.month := 3;
                     Options.day := 14;
                     Options.day_of_week := lit "목";
                     Options.resend := 1;
                     Options.resend_reason := Some (lit "파일 누락") |})
    /\ exists r,
         rows_of db' = rows_of earlier ++ [r]
         /\ clock 3%nat <= Options.saved_at r.
Proof.
  intros earlier clock.
  destruct (C2_save_then_load_round_trip 13 (lit "서울") (lit "홍길동") 5 3 14
              (lit "목") true (lit "파일 누락") earlier clock 3%nat 5%nat)
    as [db' [Hsave [Hload [_ [r [Hrows [_ Hat]]]]]]].
  - vm_compute. reflexivity.
  - vm_compute. reflexivity.
  - intros t t' H. unfold clock. lia.
  - repeat constructor.
  - intros r [<- | []]. vm_compute. reflexivity.
  - exists db'. split; [exact Hsave|]. split; [exact Hload|].
    exists r. split; [exact Hrows | exact Hat].
Defined.

(** C9 as stated fails: a save with a month below -2^63 appends no row. *)
Lemma C9_save_out_of_range_appends_nothing :
  _save_options 13 (lit "서울") (lit "홍길동") 5 (- 2 ^ 63 - 1) 14 (lit "목")
    false [] 1700000000
    (Some [saved_row 12 (lit "서울") (lit "홍길동") 4 3 13 (lit "수") false []
             1699900000])
  = Raise OverflowError.
Proof. vm_compute. reflexivity. Qed.

Lemma C9_save_appends_witness :
  _save_options 13 (lit "서울") (lit "홍길동") 5 3 14 (lit "목") false []
    1700000000
    (Some [saved_row 12 (lit "서울") (lit "홍길동") 4 3 13 (lit "수") false []
             1699900000])
  = Ok (Some ([saved_row 12 (lit "서울") (lit "홍길동") 4 3 13 (lit "수") false
                 [] 1699900000]
              ++ [saved_row 13 (lit "서울") (lit "홍길동") 5 3 14 (lit "목")
                    false [] 1700000000])).
Proof.
  apply (C9_save_appends_and_init_keeps 13 (lit "서울") (lit "홍길동") 5 3 14
           (lit "목") false []);
    vm_compute; reflexivity.
Defined.

Lemma C10_resend_witness :
  let db :=
    Some [saved_row 12 (lit "서울") (lit "홍길동") 4 3 13 (lit "수") false []
            1699900000] in
  let db' :=
    Some [saved_row 12 (lit "서울") (lit "홍길동") 4 3 13 (lit "수") false []
            1699900000;
          saved_row 13 (lit "서울") (lit "홍길동") 5 3 14 (lit "목") true []
            1700000000] in
  saved_only db
  /\ _save_options 13 (lit "서울") (lit "홍길동") 5 3 14 (lit "목") true []
       1700000000 db = Ok db'
  /\ exists data,
       _load_latest_options db' = Ok (Some data)
       /\ Options.resend data = 1.
Proof.
  intros db db'.
  assert (saved_only db) as Hdb.
  { apply (saved_only_save 12 (lit "서울") (lit "홍길동") 4 3 13 (lit "수")
             false [] 1699900000 (_init_db None)).
    - constructor.
    - vm_compute. reflexivity. }
  assert (_save_options 13 (lit "서울") (lit "홍길동") 5 3 14 (lit "목") true []
            1700000000 db = Ok db') as Hsave
    by (vm_compute; reflexivity).
  split; [exact Hdb|]. split; [exact Hsave|].
  apply (C10_resend_is_stored_as_0_or_1 13 (lit "서울") (lit "홍길동") 5 3 14
           (lit "목") true [] db db' 1700000000 Hdb Hsave).
  intros r [<- | []]. vm_compute. reflexivity.
Defined.

(** * The validator and the handlers *)

Lemma eqb_refl (a : str) : Text.eqb a a = true.
Proof.
  induction a as [|x a IH]; simpl; [reflexivity|].
  now rewrite N.eqb_refl, IH.
Qed.

Lemma mem_In (x : str) (options : list str) : In x options -> mem x options = true.
Proof.
  intros H. unfold mem. apply existsb_exists. exists x.
  split; [exact H | apply eqb_refl].
Qed.

Lemma mem_nth_error (options : list str) (i : nat) (v : str) :
  nth_error options i = Some v -> mem v options = true.
Proof.
  intros H. apply mem_In. eapply nth_error_In. exact H.
Qed.


Section Validation.

Variable int : str -> option Z.

Lemma validate_ignores_location (l : str) (f : Form) :
  _validate_common_inputs int (with_location l f)
  = _validate_common_inputs int f.
Proof. now destruct f. Qed.

Lemma edit_location_listed (e : Event) (f : Form) :
  mem (location_var f) LOCATION_OPTIONS = true ->
  mem (location_var (edit e f)) LOCATION_OPTIONS = true.
Proof.
  destruct f as [c l n nd m d dw r rr re t ct].
  cbn -[mem nth_error]. intros H.
  destruct e; cbn -[mem nth_error]; try exact H.
  - destruct (nth_error LOCATION_OPTIONS i) as [v|] eqn:E; cbn -[mem].
    + eapply mem_nth_error. exact E.
    + exact H.
  - destruct (nth_error DAY_OF_WEEK_OPTIONS i); exact H.
  - destruct re; exact H.
Qed.

Lemma on_generate_keeps (w : World) :
  location_var (form (on_generate int w)) = location_var (form w)
  /\ db (on_generate int w) = db w.
Proof.
  unfold on_generate.
  destruct (_validate_common_inputs int (form w))
    as [e | [[[[[cardinal nth] month] day] dow] name]]; [now split|].
  destruct (_build_email _ _ _ _ _ _ _ _ _) as [title content]. now split.
Qed.

Lemma on_save_options_listed (now : Z) (w w' : World) :
  location_listed w ->
  on_save_options int now w = Ok w' ->
  location_listed w'.
Proof.
  intros [Hf Hdb]. unfold on_save_options.
  destruct (_validate_common_inputs int (form w))
    as [e | [[[[[cardinal nth] month] day] dow] name]].
  - intros H. injection H as <-. now split.
  - destruct (_save_options _ _ _ _ _ _ _ _ _ _ _) as [d|e] eqn:E;
      simpl; [|discriminate].
    intros H. injection H as <-. split; [exact Hf|].
    apply save_inv in E. destruct E as [rows [Hrows [_ ->]]].
    intros r Hin. simpl in Hin. apply in_app_or in Hin.
    destruct Hin as [Hin | [<- | []]].
    + apply Hdb. rewrite Hrows. exact Hin.
    + exact Hf.
Qed.

Lemma on_load_options_listed (w w' : World) :
  location_listed w ->
  on_load_options w = Ok w' ->
  location_listed w'.
Proof.
  intros [Hf Hdb]. unfold on_load_options, _load_latest_options.
  destruct (db w) as [rows|] eqn:Edb; simpl; [|discriminate].
  destruct (order_by_saved_at_desc_limit_1 rows) as [r|] eqn:E; simpl.
  - intros H. injection H as <-. split.
    + simpl. apply Hdb. simpl. apply select_is_maximal in E. apply E.
    + simpl. rewrite Edb. exact Hdb.
  - intros H. injection H as <-. split; [exact Hf|].
    simpl. rewrite Edb. exact Hdb.
Qed.

Lemma step_location_listed (w : World) (e : Event) :
  location_listed w -> location_listed (step int w e).
Proof.
  intros Hw. pose proof Hw as [Hf Hdb].
  destruct e; simpl;
    try (split; [apply edit_location_listed; exact Hf | exact Hdb]).
  - unfold on_today. destruct (_today now) as [[[m d] dow]|];
      [split; [exact Hf | exact Hdb] | exact Hw].
  - destruct (on_generate_keeps w) as [E1 E2]. split.
    + rewrite E1. exact Hf.
    + rewrite E2. exact Hdb.
  - split; [vm_compute; reflexivity | exact Hdb].
  - destruct (on_save_options int now w) as [w'|] eqn:E; [|exact Hw].
    eapply on_save_options_listed; eassumption.
  - destruct (on_load_options w) as [w'|] eqn:E; [|exact Hw].
    eapply on_load_options_listed; eassumption.
  - unfold _copy_text. destruct (truthy _); split; assumption.
  - unfold _copy_text. destruct (truthy _); split; assumption.
Qed.

Lemma run_location_listed (events : list Event) :
  forall w, location_listed w -> location_listed (run int w events).
Proof.
  induction events as [|e events IH]; intros w Hw; [exact Hw|].
  simpl. apply IH. now apply step_location_listed.
Qed.

(** C6, amended: the validator does not look at the location, so it
    neither accepts nor rejects an input because of it.  The form keeps
    the location inside LOCATION_OPTIONS instead: starting [main] on a
    store whose rows hold listed locations, after any sequence of user
    actions the location handed to [_build_email] and [_save_options]
    is one of 서울, 대전, 광주, 구미, 부울경, and so is the location of every
    stored row. *)
Theorem C6_location_stays_in_the_list (file : database) (events : list Event) :
  locations_listed file ->
  (forall l f, _validate_common_inputs int (with_location l f)
               = _validate_common_inputs int f)
  /\ mem (location_var (form (run int (main file) events))) LOCATION_OPTIONS
     = true
  /\ locations_listed (db (run int (main file) events)).
Proof.
  intros Hfile. split; [apply validate_ignores_location|].
  apply run_location_listed. split.
  - vm_compute. reflexivity.
  - simpl. destruct file as [rows|]; [exact Hfile | intros r []].
Qed.

(** The same through the generate button: a reason of white space only
    in the form is trimmed to nothing and the default is written. *)
Lemma on_generate_blank_reason (w : World) (cardinal nth month day : Z)
    (dow name : str) :
  _validate_common_inputs int (form w)
  = inr (cardinal, nth, month, day, dow, name) ->
  resend_var (form w) = true ->
  strip (resend_reason_var (form w)) = [] ->
  Infix DEFAULT_RESEND_REASON (content_text (form (on_generate int w))).
Proof.
  intros Hv Hr Hb. unfold on_generate. rewrite Hv, Hr, Hb.
  pose proof (build_email_resend cardinal (location_var (form w)) name nth
                month day dow []) as E.
  destruct (_build_email _ _ _ _ _ _ _ _ _) as [title content].
  cbn [snd] in E. cbn [form with_form set_texts content_text].
  rewrite E. change (or_else [] DEFAULT_RESEND_REASON) with DEFAULT_RESEND_REASON.
  apply resend_body_has_reason.
Qed.

(** C4, amended: for every FieldSet with resend set and an empty
    reason, the body contains the default reason text "첨부 오류로 인한
    재송부".  A reason of white space only gets the default because the
    generate button trims it to the empty text before it calls
    [_build_email]: whenever the validator accepts a form with resend
    checked and a blank reason, the body written contains the default
    reason text.  [_build_email] itself puts any reason that is not
    empty, white space included, into the body as it is. *)
Theorem C4_empty_reason_gets_default
    (cardinal_number : Z) (location name : str) (nth_day month day : Z)
    (day_of_week : str)
    (w : World) (cardinal nth mon dy : Z) (dow nm : str) :
  Infix (lit "첨부 오류로 인한 재송부")
    (snd (_build_email cardinal_number location name nth_day month day
            day_of_week true []))
  /\ (_validate_common_inputs int (form w)
      = inr (cardinal, nth, mon, dy, dow, nm) ->
      resend_var (form w) = true ->
      strip (resend_reason_var (form w)) = [] ->
      Infix (lit "첨부 오류로 인한 재송부")
        (content_text (form (on_generate int w))))
  /\ (forall c reason,
        snd (_build_email cardinal_number location name nth_day month day
               day_of_week true (c :: reason))
        = resend_body cardinal_number location name nth_day month day
            day_of_week (c :: reason)).
Proof.
  split; [apply build_email_empty_reason|].
  split; [|intros c reason; apply build_email_untrimmed_reason].
  intros Hv Hr Hb.
  pose proof (on_generate_blank_reason w cardinal nth mon dy dow nm Hv Hr Hb)
    as H.
  rewrite default_reason_text in H. exact H.
Qed.

(** C7: when the name is empty once trimmed, the validator answers
    EmptyName whatever the other fields hold, and neither handler does
    its work: generating leaves both result texts as they were, saving
    leaves the store as it was; each only shows the error box. *)
Theorem C7_empty_name_is_rejected (w : World) (now : Z) :
  strip (name_var (form w)) = [] ->
  _validate_common_inputs int (form w) = inl EmptyName
  /\ on_generate int w = show (error_dialog EmptyName) w
  /\ title_text (form (on_generate int w)) = title_text (form w)
  /\ content_text (form (on_generate int w)) = content_text (form w)
  /\ on_save_options int now w = Ok (show (error_dialog EmptyName) w)
  /\ db (show (error_dialog EmptyName) w) = db w.
Proof.
  intros H.
  assert (_validate_common_inputs int (form w) = inl EmptyName) as E.
  { unfold _validate_common_inputs. now rewrite H. }
  unfold on_generate, on_save_options. rewrite E. repeat split.
Qed.

End Validation.

(** C6 as stated fails: a location outside the list, loaded from the
    store, passes the validator and goes into the mail. *)
Lemma C6_unlisted_location_is_accepted :
  let file :=
    Some [saved_row 13 (lit "제주") (lit "홍길동") 5 3 14 (lit "목") false []
            1700000000] in
  let w := run int_ascii (main file) [ClickLoad] in
  mem (location_var (form w)) LOCATION_OPTIONS = false
  /\ _validate_common_inputs int_ascii (form w)
     = inr (13, 5, 3, 14, lit "목", lit "홍길동")
  /\ title_text (form (step int_ascii w ClickGenerate))
     = lit "[SSAFY] 13기 제주 실습코치 홍길동 5일차 Wrap Up 송부".
Proof. vm_compute. repeat split. Qed.

Lemma C6_location_witness :
  let file :=
    Some [saved_row 12 (lit "대전") (lit "김철수") 4 3 13 (lit "수") false []
            1699900000] in
  let w :=
    run int_ascii (main file)
      [EditCardinal (lit "13"); EditName (lit "홍길동"); EditNthDay (lit "5");
       EditMonth (lit "3"); EditDay (lit "14"); ChooseDayOfWeek 3;
       ChooseLocation 4; ClickSave 1700000000; ClickReset; ClickLoad;
       ClickGenerate] in
  locations_listed file
  /\ List.length (rows_of (db w)) = 2%nat
  /\ location_var (form w) = lit "부울경"
  /\ title_text (form w)
     = lit "[SSAFY] 13기 부울경 실습코치 홍길동 5일차 Wrap Up 송부"
  /\ mem (location_var (form w)) LOCATION_OPTIONS = true
  /\ locations_listed (db w).
Proof.
  intros file w.
  assert (locations_listed file) as Hfile.
  { intros r [<- | []]. vm_compute. reflexivity. }
  split; [exact Hfile|].
  split; [vm_compute; reflexivity|].
  split; [vm_compute; reflexivity|].
  split; [vm_compute; reflexivity|].
  apply (C6_location_stays_in_the_list int_ascii file). exact Hfile.
Defined.

(** C4 as stated fails: a reason of white space only, handed to
    [_build_email] as it is, stays in the body and the default reason
    text is not written. *)
Lemma C4_untrimmed_blank_reason_is_kept :
  strip (lit "   ") = []
  /\ ~ Infix (lit "첨부 오류로 인한 재송부")
         (snd (_build_email 13 (lit "서울") (lit "홍길동") 5 3 14 (lit "목")
                 true (lit "   "))).
Proof.
  split; [vm_compute; reflexivity|].
  intros H. apply contains_spec in H. vm_compute in H. discriminate H.
Qed.

Lemma C4_blank_reason_witness :
  let w :=
    run int_ascii (main None)
      [EditCardinal (lit "13"); EditName (lit "홍길동"); EditNthDay (lit "5");
       EditMonth (lit "3"); EditDay (lit "14"); ChooseDayOfWeek 3;
       ClickResend; EditResendReason (lit "   ")] in
  resend_reason_var (form w) = lit "   "
  /\ Infix (lit "첨부 오류로 인한 재송부")
       (content_text (form (on_generate int_ascii w))).
Proof.
  intros w. split; [vm_compute; reflexivity|].
  apply (C4_empty_reason_gets_default int_ascii 13 (lit "서울") (lit "홍길동")
           5 3 14 (lit "목") w 13 5 3 14 (lit "목") (lit "홍길동"));
    vm_compute; reflexivity.
Defined.

Lemma C7_empty_name_witness :
  let w :=
    run int_ascii (main None)
      [EditName (lit "   "); EditCardinal (lit "열셋"); EditMonth (lit "13월")] in
  strip (name_var (form w)) = []
  /\ _validate_common_inputs int_ascii (form w) = inl EmptyName.
Proof.
  intros w. split; [vm_compute; reflexivity|].
  apply (C7_empty_name_is_rejected int_ascii w 1700000000).
  vm_compute. reflexivity.
Defined.

(** * More on the text operations *)

Module StripFacts.

Lemma lstrip_split (s : str) :
  exists ws, s = ws ++ lstrip s /\ forallb isspace ws = true.
Proof.
  induction s as [|c s [ws [E H]]]; [now exists []|].
  simpl. destruct (isspace c) eqn:Ec.
  - exists (c :: ws). simpl. rewrite Ec, H. split; [now rewrite <- E | reflexivity].
  - now exists [].
Qed.

Lemma lstrip_head (s : str) (c : codepoint) (rest : str) :
  lstrip s = c :: rest -> isspace c = false.
Proof.
  induction s as [|x s IH]; simpl; [discriminate|].
  destruct (isspace x) eqn:Ex; [exact IH|].
  intros H. injection H as <- _. exact Ex.
Qed.

Lemma lstrip_fixed (s : str) :
  (forall c rest, s = c :: rest -> isspace c = false) -> lstrip s = s.
Proof.
  destruct s as [|c s]; [reflexivity|]. intros H. simpl.
  now rewrite (H c s eq_refl).
Qed.

Lemma lstrip_idempotent (s : str) : lstrip (lstrip s) = lstrip s.
Proof. apply lstrip_fixed. intros c rest. apply lstrip_head. Qed.

Lemma lstrip_spaces (ws : str) : forallb isspace ws = true -> lstrip ws = [].
Proof.
  induction ws as [|c ws IH]; [reflexivity|]. simpl.
  intros H. apply andb_true_iff in H. destruct H as [-> H]. now apply IH.
Qed.

(** [rstrip] cuts a run of white space off the end. *)
Lemma rstrip_split (s : str) :
  exists ws, s = rstrip s ++ ws /\ forallb isspace ws = true.
Proof.
  unfold rstrip. destruct (lstrip_split (rev s)) as [ws [E H]].
  exists (rev ws). split.
  - rewrite <- rev_app_distr, <- E. now rewrite rev_involutive.
  - rewrite forallb_forall in *. intros x Hx. apply H. now apply in_rev.
Qed.

Lemma rstrip_last (s : str) (c : codepoint) (front : str) :
  rstrip s = front ++ [c] -> isspace c = false.
Proof.
  unfold rstrip. intros H.
  apply (f_equal (@rev codepoint)) in H.
  rewrite rev_involutive, rev_app_distr in H. simpl in H.
  eapply lstrip_head. exact H.
Qed.

Lemma rstrip_head (s : str) (c : codepoint) (rest : str) :
  (forall x r, s = x :: r -> isspace x = false) ->
  rstrip s = c :: rest -> isspace c = false.
Proof.
  intros Hs H. destruct (rstrip_split s) as [ws [E _]].
  rewrite H in E. simpl in E. eapply Hs. exact E.
Qed.

Lemma strip_head (s : str) (c : codepoint) (rest : str) :
  strip s = c :: rest -> isspace c = false.
Proof.
  unfold strip. apply rstrip_head. intros x r. apply lstrip_head.
Qed.

Lemma strip_last (s : str) (c : codepoint) (front : str) :
  strip s = front ++ [c] -> isspace c = false.
Proof. unfold strip. apply rstrip_last. Qed.

Lemma rstrip_fixed (s : str) :
  (forall c front, s = front ++ [c] -> isspace c = false) -> rstrip s = s.
Proof.
  intros H. unfold rstrip. rewrite lstrip_fixed; [apply rev_involutive|].
  intros c rest E. apply (H c (rev rest)).
  rewrite <- (rev_involutive s), E. reflexivity.
Qed.

(** Trimming twice is trimming once. *)
Lemma strip_idempotent (s : str) : strip (strip s) = strip s.
Proof.
  unfold strip at 1. rewrite lstrip_fixed.
  - apply rstrip_fixed. intros c front. apply strip_last.
  - intros c rest. apply strip_head.
Qed.

Lemma strip_trimmed (s : str) : strip s <> [] -> trimmed_nonempty (strip s).
Proof.
  intros H. split; [exact H|]. split.
  - intros c rest. apply strip_head.
  - intros c front. apply strip_last.
Qed.

Lemma trimmed_strip (s : str) : trimmed_nonempty s -> strip s = s.
Proof.
  intros [_ [Hh Hl]]. unfold strip. rewrite lstrip_fixed; [|exact Hh].
  now apply rstrip_fixed.
Qed.

(** White space at either end does not change what [strip] returns. *)
Lemma strip_app_spaces (front s back : str) :
  forallb isspace front = true -> forallb isspace back = true ->
  strip (front ++ s ++ back) = strip s.
Proof.
  intros Hf Hb.
  assert (forall ws x, forallb isspace ws = true ->
            lstrip (ws ++ x) = lstrip x) as L.
  { induction ws as [|c ws IH]; intros x H; [reflexivity|]. simpl in *.
    apply andb_true_iff in H. destruct H as [-> H]. now apply IH. }
  assert (forall ws x, forallb isspace ws = true ->
            rstrip (x ++ ws) = rstrip x) as R.
  { intros ws x H. unfold rstrip. rewrite rev_app_distr, L; [reflexivity|].
    rewrite forallb_forall in *. intros y Hy. apply H. now apply in_rev. }
  unfold strip. rewrite L by exact Hf.
  destruct (lstrip_split s) as [ws [E Hws]].
  destruct (lstrip s) as [|c rest] eqn:El.
  - rewrite app_nil_r in E. subst ws.
    rewrite lstrip_spaces; [reflexivity|].
    rewrite forallb_app, Hws, Hb. reflexivity.
  - rewrite E at 1. rewrite <- app_assoc, L by exact Hws.
    rewrite lstrip_fixed.
    + now apply R.
    + intros x r Hx. simpl in Hx. injection Hx as <- _.
      eapply lstrip_head. exact El.
Qed.

End StripFacts.

Import StripFacts.

(** * More on the validator *)

Lemma eqb_eq (a b : str) : Text.eqb a b = true <-> a = b.
Proof.
  split; [|intros ->; apply eqb_refl].
  revert b; induction a as [|x a IH]; intros [|y b]; simpl;
    try discriminate; [reflexivity|].
  intros H. apply andb_true_iff in H. destruct H as [Hx H].
  apply N.eqb_eq in Hx. apply IH in H. now subst.
Qed.

Lemma mem_iff (x : str) (options : list str) :
  mem x options = true <-> In x options.
Proof.
  split; [|apply mem_In].
  unfold mem. intros H. apply existsb_exists in H.
  destruct H as [y [Hy E]]. apply eqb_eq in E. now subst.
Qed.

Section ValidatorFacts.

Variable int : str -> option Z.

(** The cases of [_validate_common_inputs], taken apart in the order of
    its tests. *)
Ltac validator_cases f :=
  unfold _validate_common_inputs;
  destruct (strip (name_var f)) as [|x name'] eqn:Ename;
  [|destruct (int (cardinal_var f)) as [c'|] eqn:Ec;
    [destruct (int (nth_day_var f)) as [n'|] eqn:En;
     [destruct (int (month_var f)) as [m'|] eqn:Em;
      [destruct (int (day_var f)) as [d'|] eqn:Ed;
       [destruct (mem (strip (day_of_week_var f)) DAY_OF_WEEK_OPTIONS)
          eqn:Edow|]|]|]|]];
  cbn [truthy negb].

Lemma validate_inr_iff (f : Form) (cardinal nth month day : Z)
    (dow name : str) :
  _validate_common_inputs int f = inr (cardinal, nth, month, day, dow, name)
  <-> (name = strip (name_var f) /\ name <> []
       /\ int (cardinal_var f) = Some cardinal
       /\ int (nth_day_var f) = Some nth
       /\ int (month_var f) = Some month
       /\ int (day_var f) = Some day
       /\ dow = strip (day_of_week_var f)
       /\ In dow DAY_OF_WEEK_OPTIONS).
Proof.
  validator_cases f; split;
    try (intros H; discriminate H);
    try (intros [-> [H _]]; now contradiction H);
    try (intros [_ [_ [H _]]]; discriminate H);
    try (intros [_ [_ [_ [H _]]]]; discriminate H);
    try (intros [_ [_ [_ [_ [H _]]]]]; discriminate H);
    try (intros [_ [_ [_ [_ [_ [H _]]]]]]; discriminate H).
  - intros H. injection H as <- <- <- <- <- <-.
    repeat split; try reflexivity; try discriminate.
    now apply mem_iff.
  - intros [-> [_ [H1 [H2 [H3 [H4 [-> _]]]]]]].
    injection H1 as <-. injection H2 as <-. injection H3 as <-.
    injection H4 as <-. reflexivity.
  - intros [_ [_ [_ [_ [_ [_ [-> H]]]]]]]. apply mem_iff in H. congruence.
Qed.

Lemma validate_inr_normalised (f : Form)
    (cardinal nth month day : Z) (dow name : str) :
  _validate_common_inputs int f = inr (cardinal, nth, month, day, dow, name) ->
  trimmed_nonempty name /\ strip name = name
  /\ In dow DAY_OF_WEEK_OPTIONS /\ strip dow = dow.
Proof.
  intros H. apply validate_inr_iff in H.
  destruct H as [-> [Hn [_ [_ [_ [_ [-> Hd]]]]]]].
  split; [now apply strip_trimmed|].
  split; [apply strip_idempotent|].
  split; [exact Hd | apply strip_idempotent].
Qed.

(** X1: the validator accepts exactly when the trimmed name is not
    empty, the four number texts parse and the trimmed weekday is one of
    DAY_OF_WEEK_OPTIONS; what it returns is the parsed numbers, the
    trimmed weekday and the trimmed name. *)
Theorem validator_accepts_iff (f : Form) (cardinal nth month day : Z)
    (dow name : str) :
  _validate_common_inputs int f = inr (cardinal, nth, month, day, dow, name)
  <-> (name = strip (name_var f) /\ name <> []
       /\ int (cardinal_var f) = Some cardinal
       /\ int (nth_day_var f) = Some nth
       /\ int (month_var f) = Some month
       /\ int (day_var f) = Some day
       /\ dow = strip (day_of_week_var f)
       /\ In dow DAY_OF_WEEK_OPTIONS).
Proof. apply validate_inr_iff. Qed.

(** X2: whatever the validator accepts has a name that is not empty and
    carries no white space at either end, and a weekday that is one of
    the seven labels; trimming either again changes nothing. *)
Theorem validator_output_is_normalised (f : Form)
    (cardinal nth month day : Z) (dow name : str) :
  _validate_common_inputs int f = inr (cardinal, nth, month, day, dow, name) ->
  trimmed_nonempty name /\ strip name = name
  /\ In dow DAY_OF_WEEK_OPTIONS /\ strip dow = dow.
Proof. apply validate_inr_normalised. Qed.

(** X18: white space typed before or after the name makes no difference
    to the validator's answer. *)
Theorem validator_ignores_space_around_name (f : Form) (front back : str) :
  forallb isspace front = true ->
  forallb isspace back = true ->
  _validate_common_inputs int
    (edit (EditName (front ++ name_var f ++ back)) f)
  = _validate_common_inputs int f.
Proof.
  intros Hf Hb. destruct f as [c l n nd m d dw r rr re t ct].
  unfold _validate_common_inputs.
  cbn [edit name_var cardinal_var nth_day_var month_var day_var
       day_of_week_var].
  now rewrite strip_app_spaces.
Qed.

(** X3: the validator answers NotANumber exactly when the trimmed name
    is not empty and one of the four number texts does not parse,
    whatever the weekday is. *)
Theorem validator_not_a_number_iff (f : Form) :
  _validate_common_inputs int f = inl NotANumber
  <-> (strip (name_var f) <> []
       /\ (int (cardinal_var f) = None \/ int (nth_day_var f) = None
           \/ int (month_var f) = None \/ int (day_var f) = None)).
Proof.
  validator_cases f; split;
    try (intros H; discriminate H);
    try (intros [H _]; now contradiction H);
    try (intros [_ [H | [H | [H | H]]]]; discriminate H);
    try (intros _; split; [discriminate | tauto]);
    try reflexivity.
Qed.

(** X4: the validator answers InvalidWeekday exactly when the trimmed
    name is not empty, all four number texts parse and the trimmed
    weekday is none of the seven labels. *)
Theorem validator_invalid_weekday_iff (f : Form) :
  _validate_common_inputs int f = inl InvalidWeekday
  <-> (strip (name_var f) <> []
       /\ int (cardinal_var f) <> None /\ int (nth_day_var f) <> None
       /\ int (month_var f) <> None /\ int (day_var f) <> None
       /\ ~ In (strip (day_of_week_var f)) DAY_OF_WEEK_OPTIONS).
Proof.
  validator_cases f; split;
    try (intros H; discriminate H);
    try (intros [H _]; now contradiction H);
    try (intros [_ [H _]]; now contradiction H);
    try (intros [_ [_ [H _]]]; now contradiction H);
    try (intros [_ [_ [_ [H _]]]]; now contradiction H);
    try (intros [_ [_ [_ [_ [H _]]]]]; now contradiction H);
    try reflexivity.
  - intros [_ [_ [_ [_ [_ H]]]]]. exfalso. apply H. now apply mem_iff.
  - intros _. repeat split; try discriminate.
    intros H. apply mem_iff in H. congruence.
Qed.

End ValidatorFacts.

Lemma validator_output_witness :
  trimmed_nonempty (lit "홍길동") /\ In (lit "목") DAY_OF_WEEK_OPTIONS.
Proof.
  destruct (validator_output_is_normalised int_ascii
              (run int_ascii (main None)
                 [EditCardinal (lit " 13"); EditName (lit "  홍길동 ");
                  EditNthDay (lit "5"); EditMonth (lit "3");
                  EditDay (lit "14"); ChooseDayOfWeek 3]).(form)
              13 5 3 14 (lit "목") (lit "홍길동"))
    as [H1 [_ [H2 _]]].
  - vm_compute. reflexivity.
  - split; [exact H1 | exact H2].
Defined.

(** * More on the rendered mail *)

Module LineFacts.

Lemma has_app (c : codepoint) (a b : str) : has c (a ++ b) = has c a || has c b.
Proof. apply existsb_app. Qed.

Lemma single_line_app (a b : str) :
  single_line (a ++ b) = single_line a && single_line b.
Proof. unfold single_line. now rewrite has_app, negb_orb. Qed.

Lemma single_line_of_int (n : Z) : single_line (of_int n) = true.
Proof.
  unfold single_line. destruct (has 10%N (of_int n)) eqn:E; [|reflexivity].
  unfold has in E. apply existsb_exists in E. destruct E as [c [Hc E]].
  apply N.eqb_eq in E. subst c. apply of_int_range in Hc. lia.
Qed.

Lemma split_lines_nonempty (s : str) : split_lines s <> [].
Proof.
  destruct s as [|c s]; simpl; [discriminate|].
  destruct (c =? 10)%N; [discriminate|].
  destruct (split_lines s); discriminate.
Qed.

Lemma lines_nl (b : str) : split_lines (nl ++ b) = [] :: split_lines b.
Proof. reflexivity. Qed.

(** A piece without a newline goes in front of the first line of what
    follows it. *)
Lemma lines_piece (a b : str) :
  single_line a = true -> split_lines (a ++ b) = glue a (split_lines b).
Proof.
  unfold single_line. induction a as [|c a IH]; intros H.
  - simpl. destruct (split_lines b) eqn:E; [|reflexivity].
    now apply split_lines_nonempty in E.
  - apply negb_true_iff in H.
    change (has 10%N (c :: a)) with ((10 =? c)%N || has 10%N a) in H.
    apply orb_false_iff in H.
    destruct H as [Hc H]. rewrite N.eqb_sym in Hc.
    change (split_lines ((c :: a) ++ b))
      with (if (c =? 10)%N then [] :: split_lines (a ++ b)
            else match split_lines (a ++ b) with
                 | [] => [[c]]
                 | l :: ls => (c :: l) :: ls
                 end).
    rewrite Hc, IH by now apply negb_true_iff.
    destruct (split_lines b); reflexivity.
Qed.

Lemma lines_last (a : str) : single_line a = true -> split_lines a = [a].
Proof.
  intros H. rewrite <- (app_nil_r a) at 1. rewrite lines_piece by exact H.
  cbn [split_lines glue]. now rewrite app_nil_r.
Qed.

End LineFacts.

Import LineFacts.

(** Solves [single_line s = true] for a piece of the mail. *)
Ltac one_line :=
  first [ assumption
        | apply single_line_of_int
        | vm_compute; reflexivity ].

(** Takes the lines of a text written with [++] piece by piece. *)
Ltac take_lines :=
  repeat rewrite <- app_assoc;
  repeat first [ rewrite lines_nl
               | rewrite lines_piece by one_line
               | rewrite lines_last by one_line ];
  cbn [glue]; repeat rewrite app_nil_r.

Section Lines.

Variables (cardinal_number : Z) (location name : str).
Variables (nth_day month day : Z) (day_of_week : str).

Hypothesis location_one_line : single_line location = true.
Hypothesis name_one_line : single_line name = true.
Hypothesis day_of_week_one_line : single_line day_of_week = true.

(** X5: when location, name and weekday hold no newline, the body of a
    mail that is not a re-send has nine lines: the greeting, a blank
    line, the report sentence, a blank line, the two lines on special
    matters, a blank line, the thanks and the signature; the reason
    plays no part in it. *)
Theorem plain_body_lines (resend_reason : str) :
  split_lines
    (snd (_build_email cardinal_number location name nth_day month day
            day_of_week false resend_reason))
  = [ lit "안녕하십니까, " ++ of_int cardinal_number ++ lit "기 " ++ location
      ++ lit " 실습코치 " ++ name ++ lit "입니다.";
      [];
      of_int month ++ lit "월 " ++ of_int day ++ lit "일(" ++ day_of_week
      ++ lit ") " ++ of_int nth_day
      ++ lit "일차 Wrap Up 보고서를 첨부하여 송부드립니다.";
      [];
      lit "특이사항";
      lit "- 해당 사항 없음.";
      [];
      lit "감사합니다.";
      name ++ lit " 드림." ].
Proof.
  unfold _build_email. cbv beta zeta iota. cbn [snd]. take_lines.
  reflexivity.
Qed.

(** X6: when location, name, weekday and the reason in use hold no
    newline, the body of a re-sent mail has the same nine lines, with
    the reason (the default one when none is given) inside the third. *)
Theorem resend_body_lines (resend_reason : str) :
  single_line (or_else resend_reason DEFAULT_RESEND_REASON) = true ->
  split_lines
    (snd (_build_email cardinal_number location name nth_day month day
            day_of_week true resend_reason))
  = [ lit "안녕하십니까, " ++ of_int cardinal_number ++ lit "기 " ++ location
      ++ lit " 실습코치 " ++ name ++ lit "입니다.";
      [];
      of_int month ++ lit "월 " ++ of_int day ++ lit "일(" ++ day_of_week
      ++ lit ") " ++ of_int nth_day ++ lit "일차 Wrap Up보고서를 "
      ++ or_else resend_reason DEFAULT_RESEND_REASON
      ++ lit " 사유로 재송부드립니다.";
      [];
      lit "특이사항";
      lit "- 해당 사항 없음.";
      [];
      lit "감사합니다.";
      name ++ lit " 드림." ].
Proof.
  intros reason_one_line.
  unfold _build_email. cbv beta zeta iota. cbn [snd]. take_lines.
  reflexivity.
Qed.

End Lines.

(** * More on the settings store *)

Lemma top1_app (l1 l2 : list Options.row) :
  forall best, top1 best (l1 ++ l2) = top1 (top1 best l1) l2.
Proof.
  induction l1 as [|r l1 IH]; intros best; [reflexivity|].
  simpl. apply IH.
Qed.

(** Where the selected row stands in the scan: rows before it are
    strictly older, rows after it are not newer. *)
Lemma top1_position (rows : list Options.row) :
  forall best,
  exists pre post,
    best :: rows = pre ++ top1 best rows :: post
    /\ (forall x, In x pre ->
          Options.saved_at x < Options.saved_at (top1 best rows))
    /\ (forall x, In x post ->
          Options.saved_at x <= Options.saved_at (top1 best rows)).
Proof.
  induction rows as [|r0 rows IH]; intros best.
  - exists [], []. simpl. repeat split; intros x [].
  - simpl.
    pose proof (top1_ge_best rows
                  (if Options.saved_at best <? Options.saved_at r0
                   then r0 else best)) as G.
    destruct (IH (if Options.saved_at best <? Options.saved_at r0
                  then r0 else best)) as [pre [post [E [Hpre Hpost]]]].
    destruct (Options.saved_at best <? Options.saved_at r0) eqn:C.
    + apply Z.ltb_lt in C. exists (best :: pre), post.
      split; [simpl; now rewrite <- E|]. split; [|exact Hpost].
      intros x [<- | Hx]; [lia | now apply Hpre].
    + apply Z.ltb_ge in C. destruct pre as [|p pre].
      * simpl in E. injection E as E1 E2. exists [], (r0 :: rows).
        rewrite <- E1 in *. split; [reflexivity|]. split; [intros x []|].
        intros x [<- | Hx]; [exact C|].
        apply Hpost. rewrite <- E2. exact Hx.
      * simpl in E. injection E as E1 E2. subst p.
        exists (best :: r0 :: pre), post.
        split; [simpl; now rewrite <- E2|]. split; [|exact Hpost].
        assert (Options.saved_at best
                < Options.saved_at (top1 best rows)) as B
          by (apply Hpre; now left).
        intros x [<- | [<- | Hx]]; [exact B | lia |].
        apply Hpre. now right.
Qed.

(** X7: on a table that has rows, the load returns the columns of the
    first row, in the order of insertion, among those with the greatest
    saved_at: every row before it is strictly older and no row after it
    is newer. *)
Theorem load_returns_first_of_the_newest (rows : list Options.row) :
  rows <> [] ->
  exists pre r post,
    rows = pre ++ r :: post
    /\ _load_latest_options (Some rows) = Ok (Some (Options.cols r))
    /\ (forall x, In x pre -> Options.saved_at x < Options.saved_at r)
    /\ (forall x, In x post -> Options.saved_at x <= Options.saved_at r).
Proof.
  destruct rows as [|best rows]; [contradiction|]. intros _.
  destruct (top1_position rows best) as [pre [post [E [Hpre Hpost]]]].
  exists pre, (top1 best rows), post. repeat split; assumption.
Qed.

(** X8: once [_init_db] has run the load does not raise, and it returns
    the empty result exactly when the file held no row; on a file
    without the table it raises OperationalError. *)
Theorem load_after_init_never_raises (file : database) :
  (forall e, _load_latest_options (_init_db file) <> Raise e)
  /\ (_load_latest_options (_init_db file) = Ok None <-> rows_of file = [])
  /\ _load_latest_options None = Raise OperationalError.
Proof.
  destruct file as [[|r rows]|]; simpl; repeat split;
    try discriminate; try reflexivity; intros H; discriminate H.
Qed.

Section MoreSaving.

Variables (cardinal_number : Z) (location name : str).
Variables (nth_day month day : Z) (day_of_week : str).
Variables (resend : bool) (resend_reason : str).

(** X9: a save (of integers that fit an INTEGER and texts without a
    lone surrogate) at a clock reading that is not later than the
    saved_at of some row already stored does not change what the load
    returns: the new row is appended but never selected. *)
Theorem save_not_later_is_not_loaded
    (rows : list Options.row) (old : Options.row) (now : Z) :
  ints_fit cardinal_number nth_day month day = true ->
  texts_fit location name day_of_week resend_reason = true ->
  In old rows ->
  now <= Options.saved_at old ->
  exists db',
    _save_options cardinal_number location name nth_day month day
      day_of_week resend resend_reason now (Some rows) = Ok db'
    /\ rows_of db'
       = rows ++ [saved_row cardinal_number location name nth_day month day
                    day_of_week resend resend_reason now]
    /\ _load_latest_options db' = _load_latest_options (Some rows).
Proof.
  intros Hfit Htexts Hin Hnow. eexists. split; [now apply save_fitting|].
  split; [reflexivity|].
  destruct rows as [|best rows']; [contradiction|].
  simpl. do 3 f_equal. rewrite top1_app. simpl.
  pose proof (top1_max rows' best old Hin) as M.
  assert ((Options.saved_at (top1 best rows') <? now) = false) as C
    by (apply Z.ltb_ge; lia).
  now rewrite C.
Qed.

End MoreSaving.

Lemma last_row_app (rows : list Options.row) (r : Options.row) :
  last_row (rows ++ [r]) = Some r.
Proof. unfold last_row. now rewrite rev_app_distr. Qed.

(** X10: in a store filled from new by saves that each come at a later
    clock reading than the rows already there, the load returns the
    columns of the row saved last, and nothing when no save was made. *)
Theorem load_returns_the_last_of_ascending_saves (db : database) :
  saved_ascending db ->
  _load_latest_options db
  = Ok (option_map Options.cols (last_row (rows_of db))).
Proof.
  induction 1 as [|c l n nd m d dw b rr now db db' Hdb IH Hlater Hsave].
  - reflexivity.
  - apply save_inv in Hsave. destruct Hsave as [rows [-> [_ ->]]].
    simpl. rewrite last_row_app. rewrite select_newest; [reflexivity|].
    exact Hlater.
Qed.

(** * More on the handlers and the session *)

Lemma or_else_nil (a : str) : or_else a [] = a.
Proof. now destruct a. Qed.

Lemma strip_line (s : str) : strip (s ++ nl) = strip s.
Proof. apply (strip_app_spaces [] s nl); reflexivity. Qed.

Lemma on_load_options_db (w w' : World) :
  on_load_options w = Ok w' -> db w' = db w.
Proof.
  unfold on_load_options.
  destruct (_load_latest_options (db w)) as [[data|]|e]; simpl;
    intros H; [| |discriminate]; now injection H as <-.
Qed.

Lemma on_load_options_entry (w w' : World) :
  entry_follows_resend (form w) ->
  on_load_options w = Ok w' -> entry_follows_resend (form w').
Proof.
  unfold on_load_options.
  destruct (_load_latest_options (db w)) as [[data|]|e]; simpl;
    intros Hw H; [| |discriminate]; injection H as <-.
  - reflexivity.
  - exact Hw.
Qed.

Lemma copy_text_spec (widget : str) (w : World) :
  form (_copy_text widget w) = form w
  /\ db (_copy_text widget w) = db w
  /\ clipboard (_copy_text widget w)
     = (if truthy (strip widget) then Some (strip widget) else clipboard w)
  /\ dialogs (_copy_text widget w)
     = dialogs w
       ++ [showinfo (lit "복사")
             (if truthy (strip widget) then lit "클립보드에 복사되었습니다."
              else lit "복사할 내용이 없습니다.")].
Proof.
  unfold _copy_text. rewrite strip_line.
  destruct (truthy (strip widget)); repeat split.
Qed.

(** X11: [_copy_text] puts the trimmed text of the widget on the
    clipboard and says so; when that text is blank it leaves the
    clipboard as it was and says there is nothing to copy; form and
    store are never touched. *)
Theorem copy_text_puts_trimmed_text (widget : str) (w : World) :
  form (_copy_text widget w) = form w
  /\ db (_copy_text widget w) = db w
  /\ clipboard (_copy_text widget w)
     = (if truthy (strip widget) then Some (strip widget) else clipboard w)
  /\ dialogs (_copy_text widget w)
     = dialogs w
       ++ [showinfo (lit "복사")
             (if truthy (strip widget) then lit "클립보드에 복사되었습니다."
              else lit "복사할 내용이 없습니다.")].
Proof. apply copy_text_spec. Qed.

(** X12: for a weekday number from 0 to 6, [on_today] writes the month
    and the day of the clock as decimal text and the weekday's label,
    which is the entry of DAY_OF_WEEK_OPTIONS at that number and passes
    the validator's weekday test; it changes nothing else.  For any
    other weekday number it fails. *)
Theorem on_today_sets_a_valid_date (now : datetime) (f : Form) :
  (dt_weekday now < 7)%nat ->
  exists f',
    on_today now f = Some f'
    /\ month_var f' = of_int (dt_month now)
    /\ day_var f' = of_int (dt_day now)
    /\ nth_error DAY_OF_WEEK_OPTIONS (dt_weekday now)
       = Some (day_of_week_var f')
    /\ In (strip (day_of_week_var f')) DAY_OF_WEEK_OPTIONS
    /\ (cardinal_var f', location_var f', name_var f', nth_day_var f')
       = (cardinal_var f, location_var f, name_var f, nth_day_var f)
    /\ (resend_var f', resend_reason_var f', resend_reason_entry f',
        title_text f', content_text f')
       = (resend_var f, resend_reason_var f, resend_reason_entry f,
          title_text f, content_text f).
Proof.
  intros H. unfold on_today, _today.
  destruct now as [m d wd]. cbn [dt_weekday dt_month dt_day] in *.
  do 7 (destruct wd as [|wd];
        [eexists; split; [reflexivity|];
         cbn [month_var day_var day_of_week_var cardinal_var location_var
              name_var nth_day_var resend_var resend_reason_var
              resend_reason_entry title_text content_text];
         repeat split; apply mem_iff; vm_compute; reflexivity|]).
  lia.
Qed.

Lemma on_today_fails_beyond_sunday (now : datetime) (f : Form) :
  (7 <= dt_weekday now)%nat -> on_today now f = None.
Proof.
  intros H. unfold on_today, _today.
  destruct (nth_error DAY_OF_WEEK_OPTIONS (dt_weekday now)) eqn:E;
    [|reflexivity].
  assert (nth_error DAY_OF_WEEK_OPTIONS (dt_weekday now) <> None) as N
    by congruence.
  apply nth_error_Some in N. simpl in N. lia.
Qed.

Section SessionFacts.

Variable int : str -> option Z.


Lemma step_db (w : World) (e : Event) :
  exists added,
    rows_of (db (step int w e)) = rows_of (db w) ++ added
    /\ (List.length added <= count_saves [e])%nat
    /\ Forall validated_row added.
Proof.
  assert (exists added,
            rows_of (db w) = rows_of (db w) ++ added
            /\ (List.length added <= count_saves [e])%nat
            /\ Forall validated_row added) as same.
  { exists []. rewrite app_nil_r. repeat split; [apply Nat.le_0_l | constructor]. }
  destruct e; try exact same.
  - cbn [step]. destruct (on_today now (form w)); exact same.
  - cbn [step]. destruct (on_generate_keeps int w) as [_ ->]. exact same.
  - cbn [step]. unfold on_save_options.
    destruct (_validate_common_inputs int (form w))
      as [err | [[[[[cardinal nth] month] day] dow] name]] eqn:V;
      [exact same|].
    destruct (_save_options _ _ _ _ _ _ _ _ _ _ _) as [d|err] eqn:E;
      [|exact same].
    apply save_inv in E. destruct E as [rows [Hrows [_ ->]]].
    cbn [bind db show with_db]. rewrite Hrows. eexists.
    split; [reflexivity|]. split; [apply Nat.le_refl|].
    constructor; [|constructor].
    apply validate_inr_normalised in V.
    destruct V as [Hname [_ [Hdow _]]].
    repeat split; try apply Hname; try exact Hdow.
    + apply int_of_bool_range.
    + discriminate.
  - cbn [step]. destruct (on_load_options w) as [w'|err] eqn:E;
      [|exact same].
    apply on_load_options_db in E. rewrite E. exact same.
  - cbn [step]. unfold _copy_text. destruct (truthy _); exact same.
  - cbn [step]. unfold _copy_text. destruct (truthy _); exact same.
Qed.

(** X14: however the session goes, the store only grows: the rows that
    were there stay, in place and unchanged; the rows added are at most
    as many as the clicks on the save button, and each of them carries a
    validated record (trimmed non-empty name, a weekday of the seven
    labels, resend 0 or 1, a reason that is not NULL). *)
Theorem session_only_appends_validated_rows
    (file : database) (events : list Event) :
  exists added,
    rows_of (db (run int (main file) events)) = rows_of file ++ added
    /\ (List.length added <= count_saves events)%nat
    /\ Forall validated_row added.
Proof.
  assert (forall evs w, exists added,
            rows_of (db (run int w evs)) = rows_of (db w) ++ added
            /\ (List.length added <= count_saves evs)%nat
            /\ Forall validated_row added) as G.
  { induction evs as [|e evs IH]; intros w.
    - exists []. rewrite app_nil_r.
      repeat split; [apply Nat.le_0_l | constructor].
    - destruct (step_db w e) as [a1 [E1 [L1 V1]]].
      destruct (IH (step int w e)) as [a2 [E2 [L2 V2]]].
      exists (a1 ++ a2). cbn [run fold_left].
      change (fold_left (step int) evs (step int w e))
        with (run int (step int w e) evs).
      rewrite E2, E1, <- app_assoc. split; [reflexivity|].
      split; [|now apply Forall_app].
      rewrite length_app.
      change (count_saves (e :: evs))
        with (count_saves ([e] ++ evs)).
      unfold count_saves in *. rewrite filter_app, length_app. lia. }
  destruct (G events (main file)) as [added H].
  exists added. replace (rows_of file) with (rows_of (db (main file))).
  - exact H.
  - now destruct file.
Qed.

Lemma step_entry (w : World) (e : Event) :
  entry_follows_resend (form w) ->
  entry_follows_resend (form (step int w e)).
Proof.
  intros Hw. unfold entry_follows_resend in *.
  destruct e; cbn [step];
    try (destruct (form w) as [c l n nd m d dw r rr re t ct];
         cbn in *; exact Hw).
  - destruct (form w) as [c l n nd m d dw r rr re t ct]. cbn in *.
    destruct (nth_error LOCATION_OPTIONS i); exact Hw.
  - destruct (form w) as [c l n nd m d dw r rr re t ct]. cbn in *.
    destruct (nth_error DAY_OF_WEEK_OPTIONS i); exact Hw.
  - destruct (form w) as [c l n nd m d dw r rr re t ct]. reflexivity.
  - destruct (form w) as [c l n nd m d dw r rr re t ct]. cbn in *.
    destruct re; exact Hw.
  - unfold on_today. destruct (_today now) as [[[m d] dow]|]; exact Hw.
  - unfold on_generate.
    destruct (_validate_common_inputs int (form w))
      as [err | [[[[[cardinal nth] month] day] dow] name]]; [exact Hw|].
    destruct (_build_email _ _ _ _ _ _ _ _ _). exact Hw.
  - reflexivity.
  - unfold on_save_options.
    destruct (_validate_common_inputs int (form w))
      as [err | [[[[[cardinal nth] month] day] dow] name]]; [exact Hw|].
    destruct (_save_options _ _ _ _ _ _ _ _ _ _ _); exact Hw.
  - destruct (on_load_options w) as [w'|err] eqn:E; [|exact Hw].
    eapply on_load_options_entry; eassumption.
  - unfold _copy_text. destruct (truthy _); exact Hw.
  - unfold _copy_text. destruct (truthy _); exact Hw.
Qed.

(** X15: throughout a session the reason entry is enabled exactly while
    resend is checked; so typing a reason takes effect while resend is
    checked and does nothing while it is not. *)
Theorem reason_entry_follows_resend
    (file : database) (events : list Event) (s : str) :
  let w := run int (main file) events in
  entry_follows_resend (form w)
  /\ resend_reason_var (form (step int w (EditResendReason s)))
     = (if resend_var (form w) then s else resend_reason_var (form w)).
Proof.
  assert (forall evs w, entry_follows_resend (form w) ->
            entry_follows_resend (form (run int w evs))) as G.
  { induction evs as [|e evs IH]; intros w Hw; [exact Hw|].
    apply IH. now apply step_entry. }
  intros w. assert (entry_follows_resend (form w)) as Hw.
  { apply G. reflexivity. }
  split; [exact Hw|]. unfold entry_follows_resend in Hw.
  cbn [step]. destruct (form w) as [c l n nd m d dw r rr re t ct].
  cbn in *. subst re. now destruct r.
Qed.

End SessionFacts.

(** * Saving, loading, generating and copying together *)

Lemma trimmed_ends (c0 k : codepoint) (a : str) :
  isspace c0 = false -> isspace k = false ->
  trimmed_nonempty (c0 :: a ++ [k]).
Proof.
  intros H0 Hk. split; [discriminate|]. split.
  - intros c rest E. injection E as <- _. exact H0.
  - intros c front E. change (c0 :: a ++ [k]) with ((c0 :: a) ++ [k]) in E.
    apply app_inj_tail in E. destruct E as [_ <-]. exact Hk.
Qed.

(** Title and body of every mail start and end with a character that is
    not white space. *)
Lemma build_email_trimmed
    (cardinal_number : Z) (location name : str) (nth_day month day : Z)
    (day_of_week : str) (resend : bool) (resend_reason : str) :
  let mail := _build_email cardinal_number location name nth_day month day
                day_of_week resend resend_reason in
  trimmed_nonempty (fst mail) /\ trimmed_nonempty (snd mail).
Proof.
  assert (lit "[SSAFY] " = 91%N :: lit "SSAFY] ") as E1
    by (vm_compute; reflexivity).
  assert (lit "안녕하십니까, " = 50504%N :: lit "녕하십니까, ") as E2
    by (vm_compute; reflexivity).
  assert (lit " 재송부" = lit " 재송" ++ [48512%N]) as E3
    by (vm_compute; reflexivity).
  assert (lit " 송부" = lit " 송" ++ [48512%N]) as E4
    by (vm_compute; reflexivity).
  assert (lit " 드림." = lit " 드림" ++ [46%N]) as E5
    by (vm_compute; reflexivity).
  unfold _build_email. cbv beta zeta iota.
  destruct resend; cbn [fst snd]; rewrite E1, E2, E5, ?E3, ?E4;
    repeat rewrite <- app_assoc; repeat rewrite <- app_comm_cons;
    repeat rewrite app_assoc; split;
    apply trimmed_ends; vm_compute; reflexivity.
Qed.

Section Together.

Variable int : str -> option Z.

(** X16: a save through the form followed by a load brings back what
    was saved, in the form's own terms: when the validator accepts,
    the four numbers fit an INTEGER, location, name, weekday and trimmed
    reason hold no lone surrogate and every stored row is older than the
    save, the save button stores the record and the load button,
    whatever the form holds by then, fills it with the decimal text of
    the four numbers, the location, the trimmed name, weekday and
    reason, and the resend flag, with the reason entry enabled to suit;
    the two result texts are left as they are. *)
Theorem save_then_load_restores_the_form
    (w w2 : World) (rows : list Options.row) (now : Z)
    (cardinal nth month day : Z) (dow name : str) :
  let f := form w in
  let saved :=
    Some (rows ++
          [saved_row cardinal (location_var f) name nth month day dow
             (resend_var f) (strip (resend_reason_var f)) now]) in
  _validate_common_inputs int f = inr (cardinal, nth, month, day, dow, name) ->
  ints_fit cardinal nth month day = true ->
  texts_fit (location_var f) name dow (strip (resend_reason_var f)) = true ->
  db w = Some rows ->
  (forall r, In r rows -> Options.saved_at r < now) ->
  db w2 = saved ->
  on_save_options int now w
  = Ok (show (showinfo (lit "저장") (lit "옵션을 저장했습니다."))
          (with_db saved w))
  /\ exists w3,
       on_load_options w2 = Ok w3
       /\ db w3 = saved
       /\ form w3
          = {| cardinal_var := of_int cardinal;
               location_var := location_var f;
               name_var := name;
               nth_day_var := of_int nth;
               month_var := of_int month;
               day_var := of_int day;
               day_of_week_var := dow;
               resend_var := resend_var f;
               resend_reason_var := strip (resend_reason_var f);
               resend_reason_entry :=
                 if resend_var f then normal else disabled;
               title_text := title_text (form w2);
               content_text := content_text (form w2) |}.
Proof.
  intros f saved V Hfit Htexts Hdb Hold Hw2. split.
  - unfold on_save_options. fold f. rewrite V, Hdb.
    rewrite (save_fitting _ _ _ _ _ _ _ _ _ _ _ Hfit Htexts). reflexivity.
  - unfold on_load_options, _load_latest_options. rewrite Hw2.
    unfold saved. rewrite select_newest by exact Hold.
    eexists. split; [reflexivity|]. split; [exact Hw2|].
    cbn -[of_int strip]. rewrite bool_of_int_of_bool, or_else_nil.
    reflexivity.
Qed.

(** X17: when the validator accepts, the generate button writes the
    title and the body that [_build_email] makes of the validated values
    and the trimmed reason, without a message box; the copy buttons then
    put exactly that title, and exactly that body, on the clipboard. *)
Theorem generate_then_copy (w : World)
    (cardinal nth month day : Z) (dow name : str) :
  let f := form w in
  let mail :=
    _build_email cardinal (location_var f) name nth month day dow
      (resend_var f) (strip (resend_reason_var f)) in
  let w1 := on_generate int w in
  _validate_common_inputs int f = inr (cardinal, nth, month, day, dow, name) ->
  title_text (form w1) = fst mail
  /\ content_text (form w1) = snd mail
  /\ dialogs w1 = dialogs w
  /\ clipboard (step int w1 ClickCopyTitle) = Some (fst mail)
  /\ clipboard (step int w1 ClickCopyContent) = Some (snd mail).
Proof.
  intros f mail w1 V.
  assert (w1 = with_form (set_texts (fst mail) (snd mail) f) w) as E.
  { unfold w1, on_generate. fold f. rewrite V. fold mail.
    now destruct mail. }
  destruct (build_email_trimmed cardinal (location_var f) name nth month day
              dow (resend_var f) (strip (resend_reason_var f)))
    as [Ht Hb].
  fold mail in Ht, Hb.
  assert (forall s, trimmed_nonempty s ->
            clipboard (_copy_text s w1) = Some s) as C.
  { intros s Hs.
    destruct (copy_text_spec s w1) as [_ [_ [-> _]]].
    rewrite (trimmed_strip s Hs). destruct Hs as [Hs _].
    destruct s; [contradiction | reflexivity]. }
  rewrite E. cbn [step form with_form set_texts title_text content_text
                  dialogs].
  rewrite <- E. repeat split; now apply C.
Qed.

End Together.

(** * Instances *)

Lemma validator_ignores_space_witness :
  _validate_common_inputs int_ascii
    (edit (EditName (lit " " ++ name_var example_form ++ lit "  "))
       example_form)
  = _validate_common_inputs int_ascii example_form.
Proof.
  apply (validator_ignores_space_around_name int_ascii example_form
           (lit " ") (lit "  "));
    vm_compute; reflexivity.
Defined.

Lemma plain_body_lines_witness :
  List.length
    (split_lines
       (snd (_build_email 13 (lit "서울") (lit "홍길동") 5 3 14 (lit "목")
               false (lit "파일 누락"))))
  = 9%nat.
Proof.
  rewrite (plain_body_lines 13 (lit "서울") (lit "홍길동") 5 3 14 (lit "목"));
    [reflexivity | vm_compute; reflexivity ..].
Defined.

Lemma resend_body_lines_witness :
  List.length
    (split_lines
       (snd (_build_email 13 (lit "서울") (lit "홍길동") 5 3 14 (lit "목")
               true (lit "파일 누락"))))
  = 9%nat.
Proof.
  rewrite (resend_body_lines 13 (lit "서울") (lit "홍길동") 5 3 14 (lit "목"));
    [reflexivity | vm_compute; reflexivity ..].
Defined.

Lemma load_first_of_the_newest_witness :
  let rows :=
    [saved_row 13 (lit "서울") (lit "홍길동") 5 3 14 (lit "목") false []
       1700000000;
     saved_row 13 (lit "대전") (lit "홍길동") 6 3 15 (lit "금") false []
       1700000000] in
  rows <> []
  /\ exists pre r post,
       rows = pre ++ r :: post
       /\ _load_latest_options (Some rows) = Ok (Some (Options.cols r))
       /\ (forall x, In x pre -> Options.saved_at x < Options.saved_at r)
       /\ (forall x, In x post -> Options.saved_at x <= Options.saved_at r).
Proof.
  intros rows. split; [discriminate|].
  apply (load_returns_first_of_the_newest rows). discriminate.
Defined.

Lemma save_not_later_witness :
  let old :=
    saved_row 13 (lit "서울") (lit "홍길동") 5 3 14 (lit "목") false []
      1700000000 in
  exists db',
    _save_options 13 (lit "대전") (lit "홍길동") 6 3 15 (lit "금") false []
      1699999990 (Some [old]) = Ok db'
    /\ _load_latest_options db' = _load_latest_options (Some [old]).
Proof.
  intros old.
  destruct (save_not_later_is_not_loaded 13 (lit "대전") (lit "홍길동") 6 3 15
              (lit "금") false [] [old] old 1699999990)
    as [db' [Hsave [_ Hload]]].
  - vm_compute. reflexivity.
  - vm_compute. reflexivity.
  - now left.
  - vm_compute. discriminate.
  - exists db'. split; [exact Hsave | exact Hload].
Defined.

Lemma load_last_of_ascending_witness :
  let row1 :=
    saved_row 13 (lit "서울") (lit "홍길동") 5 3 14 (lit "목") false []
      1700000000 in
  let row2 :=
    saved_row 13 (lit "대전") (lit "홍길동") 6 3 15 (lit "금") true
      (lit "파일 누락") 1700000060 in
  let row3 :=
    saved_row 13 (lit "광주") (lit "홍길동") 7 3 18 (lit "월") false []
      1700000120 in
  saved_ascending (Some [row1; row2; row3])
  /\ _load_latest_options (Some [row1; row2; row3])
     = Ok (Some (Options.cols row3))
  /\ Options.cols row3 <> Options.cols row1.
Proof.
  intros row1 row2 row3.
  assert (saved_ascending (Some [row1; row2; row3])) as H.
  { apply (saved_ascending_save 13 (lit "광주") (lit "홍길동") 7 3 18
             (lit "월") false [] 1700000120 (Some [row1; row2])).
    - apply (saved_ascending_save 13 (lit "대전") (lit "홍길동") 6 3 15
               (lit "금") true (lit "파일 누락") 1700000060 (Some [row1])).
      + apply (saved_ascending_save 13 (lit "서울") (lit "홍길동") 5 3 14
                 (lit "목") false [] 1700000000 (_init_db None)).
        * constructor.
        * intros r [].
        * vm_compute. reflexivity.
      + intros r [<- | []]. vm_compute. reflexivity.
      + vm_compute. reflexivity.
    - intros r [<- | [<- | []]]; vm_compute; reflexivity.
    - vm_compute. reflexivity. }
  split; [exact H|]. split.
  - rewrite (load_returns_the_last_of_ascending_saves _ H).
    vm_compute. reflexivity.
  - vm_compute. discriminate.
Defined.

Lemma on_today_witness :
  exists f',
    on_today {| dt_month := 3; dt_day := 14; dt_weekday := 3 |} example_form
    = Some f'
    /\ day_of_week_var f' = lit "목".
Proof.
  destruct (on_today_sets_a_valid_date
              {| dt_month := 3; dt_day := 14; dt_weekday := 3 |} example_form)
    as [f' [H [_ [_ [Hd _]]]]].
  - vm_compute. repeat constructor.
  - exists f'. split; [exact H|].
    assert (nth_error DAY_OF_WEEK_OPTIONS 3 = Some (lit "목")) as E
      by (vm_compute; reflexivity).
    cbn [dt_weekday] in Hd. rewrite E in Hd. injection Hd as <-.
    reflexivity.
Defined.

Lemma save_then_load_witness :
  let earlier :=
    saved_row 12 (lit "대전") (lit "김철수") 4 3 13 (lit "수") false []
      1699900000 in
  let saved :=
    Some [earlier;
          saved_row 13 (lit "서울") (lit "홍길동") 5 3 14 (lit "목") true
            (lit "파일 누락") 1700000000] in
  on_save_options int_ascii 1700000000 (example_world (Some [earlier]))
  = Ok (show (showinfo (lit "저장") (lit "옵션을 저장했습니다."))
          (with_db saved (example_world (Some [earlier]))))
  /\ exists w3,
       on_load_options
         {| form := form (main None); db := saved; dialogs := [];
            clipboard := None |}
       = Ok w3
       /\ (name_var (form w3), location_var (form w3), resend_var (form w3),
           resend_reason_var (form w3))
          = (lit "홍길동", lit "서울", true, lit "파일 누락").
Proof.
  intros earlier saved.
  destruct (save_then_load_restores_the_form int_ascii
              (example_world (Some [earlier]))
              {| form := form (main None); db := saved; dialogs := [];
                 clipboard := None |}
              [earlier] 1700000000 13 5 3 14 (lit "목") (lit "홍길동"))
    as [Hsave [w3 [Hload [_ Hform]]]].
  - vm_compute. reflexivity.
  - vm_compute. reflexivity.
  - vm_compute. reflexivity.
  - reflexivity.
  - intros r [<- | []]. vm_compute. reflexivity.
  - vm_compute. reflexivity.
  - split; [exact Hsave|].
    exists w3. split; [exact Hload|]. rewrite Hform.
    vm_compute. reflexivity.
Defined.

Lemma generate_then_copy_witness :
  clipboard
    (step int_ascii (on_generate int_ascii (example_world None))
       ClickCopyTitle)
  = Some (fst (_build_email 13 (lit "서울") (lit "홍길동") 5 3 14 (lit "목")
                 true (lit "파일 누락"))).
Proof.
  destruct (generate_then_copy int_ascii (example_world None)
              13 5 3 14 (lit "목") (lit "홍길동"))
    as [_ [_ [_ [H _]]]].
  - vm_compute. reflexivity.
  - rewrite H. vm_compute. reflexivity.
Defined.
